(** * brin-api: sentiment store, aggregation and HTTP handlers

    A shallow embedding of [src/postgresDB.js] (the store adapter and the
    aggregation functions) and of the request handlers of [src/server.js]
    and [src/unnamed/part_000] (the server with the Socket.IO broadcast).

    Conventions of the embedding.
    - JavaScript values coming from a JSON body are [JsValue]s; numbers are
      exact rationals ([Q]), so IEEE rounding of literals is not modelled.
    - A computation that can throw, reads the module-level [pool], talks to
      the database, writes to the console or emits on the socket is a
      function [World -> Exc A * World].
    - The PostgreSQL server is outside the repository.  Its table holds typed
      rows; what it makes of the seven parameters of the INSERT statement
      (casts, NOT NULL and CHECK constraints) is decided by the table
      definition, which is not among the sources, and is a parameter
      ([table_coerce]) of everything that inserts.
    - Any statement sent to the pool may fail (lost connection, timeout):
      the database carries a script of pending faults, one entry consumed by
      each [pool.query]. *)

From Stdlib Require Import List String Ascii ZArith QArith Qround Qabs Bool
  Lia Lqa Permutation Sorted.
Import ListNotations.

Local Open Scope string_scope.
Local Open Scope Z_scope.

(** ** JavaScript values *)

Module Js.

#[warnings="-register-all"]
Inductive JsValue : Type :=
| JUndefined
| JNull
| JBool (b : bool)
| JNum (q : Q)
| JStr (s : string)
| JArr (items : list JsValue)
| JObj (props : list (string * JsValue)).

(** ToBoolean.  JSON has no NaN, so the only falsy number is zero. *)
Definition truthy (v : JsValue) : bool :=
  match v with
  | JUndefined | JNull => false
  | JBool b => b
  | JNum q => negb (Qeq_bool q 0)
  | JStr s => negb (String.eqb s "")
  | JArr _ | JObj _ => true
  end.

(** Own property of an object built by JSON.parse or by an object
    literal: when a key is repeated the last occurrence wins (a parsed
    object never holds [undefined] as a value, so an [undefined] from the
    rest of the list means that the key is not there). *)
Fixpoint lookup (k : string) (props : list (string * JsValue)) : JsValue :=
  match props with
  | [] => JUndefined
  | (k', v) :: rest =>
      match lookup k rest with
      | JUndefined => if String.eqb k k' then v else JUndefined
      | found => found
      end
  end.

(** [v.k] for the data property names the program reads ([text],
    [predicted_class], [confidence], [all_probabilities], [source],
    [positive], [negative], [neutral]): none of them is defined on
    [Object.prototype], strings, numbers, booleans or arrays.  Reading a
    property of [undefined] or [null] is a TypeError, which is [None]
    here and turned into a thrown error by the caller. *)
Definition get_prop (v : JsValue) (k : string) : option JsValue :=
  match v with
  | JUndefined | JNull => None
  | JObj props => Some (lookup k props)
  | _ => Some JUndefined
  end.

(** Destructuring [const { k } = v] of a request body, which express.json
    guarantees to be an object or an array. *)
Definition field (v : JsValue) (k : string) : JsValue :=
  match get_prop v k with
  | Some x => x
  | None => JUndefined
  end.

(** [a || b] *)
Definition or_else (a b : JsValue) : JsValue := if truthy a then a else b.

End Js.
Import Js.

(** ** Computations: exceptions over a world *)

Inductive Exc (A : Type) : Type :=
| Ret (a : A)
| Throw (message : string).
Arguments Ret {A} a.
Arguments Throw {A} message.

(** ** The database server *)

Module Pg.

(** A row of table [sentiment_analysis]; [None] is SQL NULL. *)
Record Row : Type := mkRow {
  id : Z;
  text : option string;
  predicted_class : option string;
  confidence : option Q;
  positive_prob : option Q;
  negative_prob : option Q;
  neutral_prob : option Q;
  source : option string;
  created_at : Z;
  updated_at : Z
}.

(** The seven columns an INSERT supplies, after the server has cast the
    parameters to the column types. *)
Record Columns : Type := mkColumns {
  col_text : option string;
  col_predicted_class : option string;
  col_confidence : option Q;
  col_positive_prob : option Q;
  col_negative_prob : option Q;
  col_neutral_prob : option Q;
  col_source : option string
}.

Record Db : Type := mkDb {
  table : list Row;        (* rows in storage order, oldest first *)
  next_id : Z;             (* the id sequence *)
  now : Z;                 (* CURRENT_TIMESTAMP *)
  faults : list (option string)  (* outcome of the coming statements:
                                    [Some msg] makes the statement fail *)
}.

Definition with_faults (db : Db) (fs : list (option string)) : Db :=
  mkDb (table db) (next_id db) (now db) fs.

Definition with_table (db : Db) (rows : list Row) : Db :=
  mkDb rows (next_id db) (now db) (faults db).

(** [pool.query]: the statement runs unless the connection fails. *)
Definition run {A : Type} (stmt : Db -> Exc A * Db) (db : Db) : Exc A * Db :=
  match faults db with
  | Some msg :: rest => (Throw msg, with_faults db rest)
  | None :: rest => stmt (with_faults db rest)
  | [] => stmt db
  end.

(** *** ORDER BY key DESC

    A stable insertion sort: items with equal keys keep the order they
    had (SQL leaves the order of ties open). *)
Section OrderBy.
Context {A : Type} (key : A -> Z).

Fixpoint insert_desc (r : A) (sorted : list A) : list A :=
  match sorted with
  | [] => [r]
  | x :: rest =>
      if key x <=? key r then r :: x :: rest
      else x :: insert_desc r rest
  end.

Definition order_by_desc (rows : list A) : list A :=
  fold_right insert_desc [] rows.

End OrderBy.

(** *** Numeric rounding

    [ROUND(x, 2)] on a PostgreSQL numeric and [Number.prototype.toFixed]
    both round to the nearest multiple of [1/scale], ties away from
    zero. *)
Definition round_half_away (x : Q) : Z :=
  if Qle_bool 0 x then Qfloor (x + (1 # 2))
  else - Qfloor (- x + (1 # 2)).

Definition round_to (scale : positive) (x : Q) : Q :=
  round_half_away (x * inject_Z (Zpos scale)) # scale.

(** *** GROUP BY predicted_class

    One pass over the rows; a group is created when its class is first
    seen and accumulates COUNT( * ) and the sum and number of the non-NULL
    confidences (AVG ignores NULL). *)
Record Group : Type := mkGroup {
  g_class : option string;
  g_count : Z;
  g_sum : Q;
  g_nonnull : Z
}.

Definition class_eqb (a b : option string) : bool :=
  match a, b with
  | Some x, Some y => String.eqb x y
  | None, None => true
  | _, _ => false
  end.

Definition new_group (r : Row) : Group :=
  match confidence r with
  | Some c => mkGroup (predicted_class r) 1 c 1
  | None => mkGroup (predicted_class r) 1 0%Q 0
  end.

Definition accumulate (g : Group) (r : Row) : Group :=
  match confidence r with
  | Some c => mkGroup (g_class g) (g_count g + 1) (g_sum g + c)%Q (g_nonnull g + 1)
  | None => mkGroup (g_class g) (g_count g + 1) (g_sum g) (g_nonnull g)
  end.

Fixpoint add_row (r : Row) (gs : list Group) : list Group :=
  match gs with
  | [] => [new_group r]
  | g :: rest =>
      if class_eqb (g_class g) (predicted_class r) then accumulate g r :: rest
      else g :: add_row r rest
  end.

Definition group_by_class (rows : list Row) : list Group :=
  fold_left (fun gs r => add_row r gs) rows [].

(** A row of the result of the statistics query. *)
Record StatsRow : Type := mkStatsRow {
  sr_predicted_class : option string;
  sr_count : Z;
  sr_avg_confidence : option Q;    (* NULL when every confidence is NULL *)
  sr_percentage : Q
}.

Definition stats_row (total : Z) (g : Group) : StatsRow :=
  mkStatsRow (g_class g) (g_count g)
    (if g_nonnull g =? 0 then None
     else Some (g_sum g / inject_Z (g_nonnull g))%Q)
    (round_to 100 (inject_Z (g_count g) * 100 / inject_Z total)%Q).

(** *** The statements of postgresDB.js *)

Section Table.

(** What the table definition makes of the parameters of the INSERT:
    the typed columns, or the error the server reports. *)
Variable table_coerce : list JsValue -> Exc Columns.

(** INSERT INTO sentiment_analysis (...) VALUES ($1..$7) RETURNING * *)
Definition sql_insert (values : list JsValue) (db : Db) : Exc (list Row) * Db :=
  match table_coerce values with
  | Throw msg => (Throw msg, db)
  | Ret c =>
      let r := mkRow (next_id db) (col_text c) (col_predicted_class c)
                 (col_confidence c) (col_positive_prob c)
                 (col_negative_prob c) (col_neutral_prob c) (col_source c)
                 (now db) (now db) in
      (Ret [r], mkDb (table db ++ [r]) (next_id db + 1) (now db) (faults db))
  end.

End Table.

(** SELECT ... FROM sentiment_analysis ORDER BY created_at DESC *)
Definition sql_select_all (db : Db) : Exc (list Row) * Db :=
  (Ret (order_by_desc created_at (table db)), db).

(** SELECT ... ORDER BY created_at DESC LIMIT $1 *)
Definition sql_select_recent (limit : Z) (db : Db) : Exc (list Row) * Db :=
  if limit <? 0 then (Throw "LIMIT must not be negative", db)
  else (Ret (firstn (Z.to_nat limit) (order_by_desc created_at (table db))), db).

(** SELECT COUNT( * ) as total FROM sentiment_analysis *)
Definition sql_count (db : Db) : Exc Z * Db :=
  (Ret (Z.of_nat (List.length (table db))), db).

(** SELECT MAX(created_at) as last_updated FROM sentiment_analysis *)
Definition sql_max_created_at (db : Db) : Exc (option Z) * Db :=
  (Ret (match table db with
        | [] => None
        | r :: rest => Some (fold_right (fun x m => Z.max (created_at x) m)
                                        (created_at r) rest)
        end), db).

(** SELECT predicted_class, COUNT( * ) as count, AVG(confidence) as
    avg_confidence, ROUND((COUNT( * ) * 100.0 / (SELECT COUNT( * ) FROM
    sentiment_analysis)), 2) as percentage FROM sentiment_analysis
    GROUP BY predicted_class ORDER BY count DESC *)
Definition sql_stats (db : Db) : Exc (list StatsRow) * Db :=
  let total := Z.of_nat (List.length (table db)) in
  (Ret (order_by_desc sr_count
          (map (stats_row total) (group_by_class (table db)))), db).

(** DELETE FROM sentiment_analysis *)
Definition sql_delete (db : Db) : Exc unit * Db :=
  (Ret tt, with_table db []).

End Pg.

(** *** Table definitions to run the model on

    The CREATE TABLE statement is not part of the sources.  Two
    definitions are provided as data for concrete runs; every general
    theorem below holds for an arbitrary [table_coerce]. *)
Module Tables.
Import Pg.

Definition text_cell (v : JsValue) : Exc (option string) :=
  match v with
  | JUndefined | JNull => Ret None
  | JStr s => Ret (Some s)
  | _ => Throw "invalid input for a text column"
  end.

Definition numeric_cell (v : JsValue) : Exc (option Q) :=
  match v with
  | JUndefined | JNull => Ret None
  | JNum q => Ret (Some q)
  | _ => Throw "invalid input syntax for type numeric"
  end.

(** Text and numeric columns without any constraint: an absent parameter
    is stored as NULL. *)
Definition plain_table (values : list JsValue) : Exc Columns :=
  match values with
  | [t; c; conf; p; n; u; s] =>
      match text_cell t, text_cell c, numeric_cell conf,
            numeric_cell p, numeric_cell n, numeric_cell u, text_cell s with
      | Ret t', Ret c', Ret conf', Ret p', Ret n', Ret u', Ret s' =>
          Ret (mkColumns t' c' conf' p' n' u' s')
      | Throw m, _, _, _, _, _, _ | _, Throw m, _, _, _, _, _
      | _, _, Throw m, _, _, _, _ | _, _, _, Throw m, _, _, _
      | _, _, _, _, Throw m, _, _ | _, _, _, _, _, Throw m, _
      | _, _, _, _, _, _, Throw m => Throw m
      end
  | _ => Throw "bind message supplies the wrong number of parameters"
  end.

Definition is_null {A : Type} (c : option A) : bool :=
  match c with None => true | Some _ => false end.

(** Modelled from the spec: the table definition is missing from the
    sources; section 3 of the specification calls [text],
    [predicted_class] and [confidence] required and the three
    probabilities numeric, which is rendered here as NOT NULL on these
    six columns. *)
Definition required_table (values : list JsValue) : Exc Columns :=
  match plain_table values with
  | Throw m => Throw m
  | Ret c =>
      if is_null (col_text c) || is_null (col_predicted_class c)
         || is_null (col_confidence c) || is_null (col_positive_prob c)
         || is_null (col_negative_prob c) || is_null (col_neutral_prob c)
      then Throw "null value violates not-null constraint"
      else Ret c
  end.


End Tables.

(** ** The process: module state, console, socket *)

Module Runtime.

(** The nested probability object the adapter rebuilds from the three
    flattened columns. *)
Record Probabilities : Type := mkProbabilities {
  positive : option Q;
  negative : option Q;
  neutral : option Q
}.

(** [{ ...row, all_probabilities: {...} }] *)
Record Entry : Type := mkEntry {
  row : Pg.Row;
  all_probabilities : Probabilities
}.

(** An element of the result of getSentimentStats.  [avg_confidence] is a
    JavaScript number: [None] is NaN. *)
Record Stat : Type := mkStat {
  predicted_class : option string;
  count : Z;
  avg_confidence : option Q;
  percentage : Q
}.

Record ChartEntry : Type := mkChartEntry {
  name : string;
  value : Q;
  chart_count : Z;
  avgConfidence : option Q;
  color : string
}.

Record DatabaseInfo : Type := mkDatabaseInfo {
  total_entries : Z;
  last_updated : option Z;
  database_type : string;
  connection_status : string
}.

(** The payload of the 'data-updated' event. *)
Record UpdateData : Type := mkUpdateData {
  statistics : list Stat;
  chart_data : list ChartEntry;
  recent_entries : list Entry;
  database_info : Z * option Z * string
    (* total_entries, last_updated, database_type *)
}.

Record World : Type := mkWorld {
  pool : option Pg.Db;          (* [let pool = null] unless DATABASE_URL *)
  emitted : list UpdateData;    (* events sent with io.emit, oldest first *)
  io_error : option string;     (* [Some msg]: io.emit throws msg *)
  console : list string         (* labels of console.error / console.log *)
}.

Definition M (A : Type) : Type := World -> Exc A * World.

Definition ret {A : Type} (a : A) : M A := fun w => (Ret a, w).

Definition throw {A : Type} (message : string) : M A :=
  fun w => (Throw message, w).

Definition bind {A B : Type} (m : M A) (k : A -> M B) : M B :=
  fun w =>
    match m w with
    | (Ret a, w') => k a w'
    | (Throw e, w') => (Throw e, w')
    end.

(** [try { m } catch (error) { handler(error.message) }] *)
Definition try_catch {A : Type} (m : M A) (handler : string -> M A) : M A :=
  fun w =>
    match m w with
    | (Ret a, w') => (Ret a, w')
    | (Throw e, w') => handler e w'
    end.

(** [Promise.all([m1, m2])]: both are started, in order; the result
    rejects when one of them rejects. *)
Definition promise_all {A B : Type} (m1 : M A) (m2 : M B) : M (A * B) :=
  fun w =>
    let (r1, w1) := m1 w in
    let (r2, w2) := m2 w1 in
    match r1, r2 with
    | Ret a, Ret b => (Ret (a, b), w2)
    | Throw e, _ => (Throw e, w2)
    | Ret _, Throw e => (Throw e, w2)
    end.

Definition console_log (label : string) : M unit :=
  fun w => (Ret tt, mkWorld (pool w) (emitted w) (io_error w) (console w ++ [label])).

Definition has_pool : M bool :=
  fun w => (Ret (match pool w with Some _ => true | None => false end), w).

(** [await pool.query(...)] *)
Definition pool_query {A : Type} (stmt : Pg.Db -> Exc A * Pg.Db) : M A :=
  fun w =>
    match pool w with
    | None => (Throw "Cannot read properties of null (reading 'query')", w)
    | Some db =>
        let (r, db') := Pg.run stmt db in
        (r, mkWorld (Some db') (emitted w) (io_error w) (console w))
    end.

(** [io.emit('data-updated', updateData)] *)
Definition io_emit (updateData : UpdateData) : M unit :=
  fun w =>
    match io_error w with
    | Some msg => (Throw msg, w)
    | None => (Ret tt, mkWorld (pool w) (emitted w ++ [updateData])
                         (io_error w) (console w))
    end.

(** [v.k] as a computation: a TypeError on [undefined] and [null]. *)
Definition prop (v : JsValue) (k : string) : M JsValue :=
  match get_prop v k with
  | Some x => ret x
  | None =>
      throw ("Cannot read properties of "
             ++ match v with JNull => "null" | _ => "undefined" end
             ++ " (reading '" ++ k ++ "')")
  end.

End Runtime.

Declare Scope js_scope.
Delimit Scope js_scope with js.
Notation "x <- m ;; k" := (Runtime.bind m (fun x => k))
  (at level 61, m at next level, right associativity) : js_scope.
Notation "m ;;; k" := (Runtime.bind m (fun _ => k))
  (at level 61, right associativity) : js_scope.

(** ** src/postgresDB.js *)

Module PostgresDB.
Import Runtime.
Local Open Scope js_scope.

(** The result objects [{ success: true, ... }] and
    [{ success: false, error }]. *)
Inductive InsertResult : Type :=
| InsertOk (id : Z) (data : Entry)
| InsertFail (error : string).

Inductive ClearResult : Type :=
| ClearOk (message : string)
| ClearFail (error : string).

(** [{ ...row, all_probabilities: { positive: row.positive_prob, ... } }] *)
Definition reshape (r : Pg.Row) : Entry :=
  mkEntry r (mkProbabilities (Pg.positive_prob r) (Pg.negative_prob r)
                             (Pg.neutral_prob r)).

(** [pool.connect()] then [client.release()] *)
Definition testConnection : M bool :=
  configured <- has_pool ;;
  if negb configured then ret false
  else
    try_catch
      (pool_query (fun db => (Ret tt, db)) ;;; ret true)
      (fun _ => console_log "PostgreSQL connection failed:" ;;; ret false).

Section Table.
Variable table_coerce : list JsValue -> Exc Pg.Columns.

(** The [values] array of the INSERT. *)
Definition insert_values (analysisData : JsValue) : M (list JsValue) :=
  text <- prop analysisData "text" ;;
  predicted_class <- prop analysisData "predicted_class" ;;
  confidence <- prop analysisData "confidence" ;;
  all_probabilities <- prop analysisData "all_probabilities" ;;
  positive <- prop all_probabilities "positive" ;;
  negative <- prop all_probabilities "negative" ;;
  neutral <- prop all_probabilities "neutral" ;;
  source <- prop analysisData "source" ;;
  ret [text; predicted_class; confidence; positive; negative; neutral;
       or_else source (JStr "web_analyzer")].

Definition insertSentimentAnalysis (analysisData : JsValue) : M InsertResult :=
  configured <- has_pool ;;
  if negb configured then ret (InsertFail "PostgreSQL not configured")
  else
    try_catch
      (values <- insert_values analysisData ;;
       rows <- pool_query (Pg.sql_insert table_coerce values) ;;
       match rows with
       | newEntry :: _ => ret (InsertOk (Pg.id newEntry) (reshape newEntry))
       | [] => throw "Cannot read properties of undefined (reading 'id')"
       end)
      (fun message =>
         console_log "Error inserting data:" ;;; ret (InsertFail message)).

End Table.

Definition getAllSentimentData : M (list Entry) :=
  configured <- has_pool ;;
  if negb configured then ret []
  else
    try_catch
      (rows <- pool_query Pg.sql_select_all ;; ret (map reshape rows))
      (fun _ => console_log "Error getting all data:" ;;; ret []).

(** [parseFloat(parseFloat(avg).toFixed(4))]; on a NULL average
    parseFloat gives NaN and NaN it stays.  Doubles of magnitude 1e21
    and more, which toFixed prints in exponent form, are integers, so
    rounding to four places gives them back as well. *)
Definition to_fixed_4 (avg : option Q) : option Q :=
  match avg with
  | Some x => Some (Pg.round_to 10000 x)
  | None => None
  end.

Definition stat_of_row (r : Pg.StatsRow) : Stat :=
  mkStat (Pg.sr_predicted_class r) (Pg.sr_count r)
         (to_fixed_4 (Pg.sr_avg_confidence r)) (Pg.sr_percentage r).

Definition getSentimentStats : M (list Stat) :=
  configured <- has_pool ;;
  if negb configured then ret []
  else
    try_catch
      (rows <- pool_query Pg.sql_stats ;; ret (map stat_of_row rows))
      (fun _ => console_log "Error getting stats:" ;;; ret []).

(** [colors[sentiment] || '#6b7280'] for the three labels and for any
    string that is not a property name of Object.prototype. *)
Definition getSentimentColor (sentiment : string) : string :=
  if String.eqb sentiment "positive" then "#22c55e"
  else if String.eqb sentiment "negative" then "#ef4444"
  else "#6b7280".

(** [toUpperCase] on one ASCII character. *)
Definition to_upper (c : ascii) : ascii :=
  let n := nat_of_ascii c in
  if (97 <=? n)%nat && (n <=? 122)%nat then ascii_of_nat (n - 32) else c.

(** [s.charAt(0).toUpperCase() + s.slice(1)] *)
Definition capitalize (s : string) : string :=
  match s with
  | EmptyString => EmptyString
  | String c rest => String (to_upper c) rest
  end.

(** One step of [stats.map(...)]: [stat.predicted_class.charAt] throws
    on a null class. *)
Definition chart_entry (stat : Stat) : Exc ChartEntry :=
  match predicted_class stat with
  | None => Throw "Cannot read properties of null (reading 'charAt')"
  | Some label =>
      Ret (mkChartEntry (capitalize label) (percentage stat) (count stat)
                        (avg_confidence stat) (getSentimentColor label))
  end.

Fixpoint chart_entries (stats : list Stat) : Exc (list ChartEntry) :=
  match stats with
  | [] => Ret []
  | s :: rest =>
      match chart_entry s with
      | Throw e => Throw e
      | Ret c =>
          match chart_entries rest with
          | Throw e => Throw e
          | Ret cs => Ret (c :: cs)
          end
      end
  end.

(** [getSentimentStats().then(...).catch(...)] *)
Definition getChartData : M (list ChartEntry) :=
  try_catch
    (stats <- getSentimentStats ;;
     match chart_entries stats with
     | Ret cs => ret cs
     | Throw e => throw e
     end)
    (fun _ => console_log "Error getting chart data:" ;;; ret []).

(** [getRecentEntries(limit = 10)] *)
Definition getRecentEntries (limit : option Z) : M (list Entry) :=
  let limit := match limit with Some n => n | None => 10 end in
  configured <- has_pool ;;
  if negb configured then ret []
  else
    try_catch
      (rows <- pool_query (Pg.sql_select_recent limit) ;;
       ret (map reshape rows))
      (fun _ => console_log "Error getting recent entries:" ;;; ret []).

(** The count-and-last-updated query: [(total_entries, last_updated)]. *)
Definition getDatabaseStats : M (Z * option Z) :=
  configured <- has_pool ;;
  if negb configured then ret (0, None)
  else
    try_catch
      (promise_all (pool_query Pg.sql_count) (pool_query Pg.sql_max_created_at))
      (fun _ => console_log "Error getting database stats:" ;;; ret (0, None)).

Definition getDatabaseInfo : M DatabaseInfo :=
  configured <- has_pool ;;
  if negb configured then
    ret (mkDatabaseInfo 0 None "PostgreSQL (Not Configured)" "disconnected")
  else
    try_catch
      (stats <- getDatabaseStats ;;
       ret (mkDatabaseInfo (fst stats) (snd stats) "PostgreSQL" "connected"))
      (fun _ => console_log "Error getting database info:" ;;;
                ret (mkDatabaseInfo 0 None "PostgreSQL" "error")).

Definition clearAllData : M ClearResult :=
  configured <- has_pool ;;
  if negb configured then ret (ClearFail "PostgreSQL not configured")
  else
    try_catch
      (pool_query Pg.sql_delete ;;; ret (ClearOk "All data cleared successfully"))
      (fun message =>
         console_log "Error clearing data:" ;;; ret (ClearFail message)).

(** The object initializeDatabase resolves to: the two counters and the
    [status] tag, absent on the normal path. *)
Definition initializeDatabase : M (Z * option Z * option string) :=
  configured <- has_pool ;;
  if negb configured then ret (0, None, Some "fallback_mode")
  else
    isConnected <- testConnection ;;
    if negb isConnected then ret (0, None, Some "connection_failed")
    else
      try_catch
        (stats <- getDatabaseStats ;; ret (fst stats, snd stats, None))
        (fun _ => console_log "Error initializing database:" ;;;
                  ret (0, None, Some "error")).

End PostgresDB.

(** ** The HTTP layer shared by both servers *)

Module Http.
Import Runtime.

(** The JSON bodies the handlers send. *)
Inductive Body : Type :=
| BodyError (error : JsValue)
    (* { success: false, error }; an undefined [error] is dropped by
       JSON.stringify *)
| BodySaved (data : JsValue) (current_stats : list Stat)
            (chart_data : list ChartEntry)
    (* { success: true, message: 'Sentiment analysis saved successfully',
         data, current_stats, chart_data } *)
| BodyData (data : list Entry) (total : Z)
    (* { success: true, data, total } *)
| BodyCleared.
    (* { success: true, message: 'All sentiment data cleared successfully' } *)

Record Response : Type := mkResponse {
  status : Z;
  body : Body
}.

(** [res.json(b)] and [res.status(code).json(b)] *)
Definition json (b : Body) : M Response := ret (mkResponse 200 b).
Definition status_json (code : Z) (b : Body) : M Response :=
  ret (mkResponse code b).

(** A promise that is used without [await].  The call has started, so
    its effects on the world take place; the object at hand is the
    promise, not the value it settles to. *)
Inductive Promise (A : Type) : Type :=
| Pending (settles_to : Exc A).
Arguments Pending {A} settles_to.

Definition call {A : Type} (m : M A) : M (Promise A) :=
  fun w => let (r, w') := m w in (Ret (Pending r), w').

(** [p.k] on a promise object, for the names [success], [data] and
    [error]: a promise has no such property. *)
Definition promise_prop {A : Type} (p : Promise A) (k : string) : JsValue :=
  JUndefined.

(** *** parseInt and Array.prototype.slice *)

Definition is_space (c : ascii) : bool :=
  let n := nat_of_ascii c in
  ((9 <=? n)%nat && (n <=? 13)%nat) || (n =? 32)%nat.

Fixpoint skip_spaces (s : string) : string :=
  match s with
  | String c rest => if is_space c then skip_spaces rest else s
  | EmptyString => s
  end.

Definition digit_value (radix : Z) (c : ascii) : option Z :=
  let n := Z.of_nat (nat_of_ascii c) in
  let d := if (48 <=? n) && (n <=? 57) then n - 48
           else if (97 <=? n) && (n <=? 122) then n - 87
           else if (65 <=? n) && (n <=? 90) then n - 55
           else radix in
  if d <? radix then Some d else None.

(** The longest prefix of digits; [None] when there is none. *)
Fixpoint parse_digits (radix : Z) (s : string) (acc : option Z) : option Z :=
  match s with
  | EmptyString => acc
  | String c rest =>
      match digit_value radix c with
      | Some d =>
          parse_digits radix rest
            (Some (match acc with Some a => a | None => 0 end * radix + d))
      | None => acc
      end
  end.

(** [parseInt(s)] without a radix argument; [None] is NaN.  White space
    is the ASCII white space. *)
Definition parseInt (s : string) : option Z :=
  let s := skip_spaces s in
  let '(sign, s) :=
    match s with
    | String "-" rest => (-1, rest)
    | String "+" rest => (1, rest)
    | _ => (1, s)
    end in
  let '(radix, s) :=
    match s with
    | String "0" (String "x" rest) => (16, rest)
    | String "0" (String "X" rest) => (16, rest)
    | _ => (10, s)
    end in
  match parse_digits radix s None with
  | Some n => Some (sign * n)
  | None => None
  end.

(** [l.slice(0, end)]: NaN counts as 0, a negative end counts from the
    back. *)
Definition slice_to {A : Type} (end_ : option Z) (l : list A) : list A :=
  let len := Z.of_nat (List.length l) in
  let e := match end_ with Some e => e | None => 0 end in
  let final := if e <? 0 then Z.max (len + e) 0 else Z.min e len in
  firstn (Z.to_nat final) l.

Definition missing_fields : string :=
  "Missing required fields: text, predicted_class, confidence, all_probabilities".

End Http.

(** ** src/unnamed/part_000: the server with the Socket.IO broadcast *)

Module Server.
Import Runtime PostgresDB Http.
Local Open Scope js_scope.

(** [dbInfo?.total_entries || 0], [dbInfo?.last_updated],
    [dbInfo?.database_type || 'PostgreSQL'] *)
Definition database_info_of (dbInfo : DatabaseInfo) : Z * option Z * string :=
  (total_entries dbInfo, last_updated dbInfo,
   if String.eqb (database_type dbInfo) "" then "PostgreSQL"
   else database_type dbInfo).

Definition broadcastDataUpdate : M unit :=
  try_catch
    (r <- promise_all getSentimentStats
           (promise_all getChartData
              (promise_all (getRecentEntries (Some 5)) getDatabaseInfo)) ;;
     let '(stats, (chartData, (recentEntries, dbInfo))) := r in
     io_emit (mkUpdateData stats chartData recentEntries
                (database_info_of dbInfo)) ;;;
     console_log "Broadcasting data update to all clients")
    (fun _ => console_log "Error broadcasting update:").

(** The handlers are written against the function they import from
    postgresDB.js; [post_save_sentiment] below links the real one. *)
Section Handler.
Variable insertSentimentAnalysis : JsValue -> M InsertResult.

(** The object literal handed to insertSentimentAnalysis. *)
Definition analysis_data (text predicted_class confidence all_probabilities : JsValue)
  : JsValue :=
  JObj [("text", text); ("predicted_class", predicted_class);
        ("confidence", confidence); ("all_probabilities", all_probabilities);
        ("source", JStr "web_analyzer")].

(** app.post('/api/save-sentiment') *)
Definition save_sentiment (req_body : JsValue) : M Response :=
  try_catch
    (text <- prop req_body "text" ;;
     predicted_class <- prop req_body "predicted_class" ;;
     confidence <- prop req_body "confidence" ;;
     all_probabilities <- prop req_body "all_probabilities" ;;
     if negb (truthy text) || negb (truthy predicted_class)
        || negb (truthy confidence) || negb (truthy all_probabilities)
     then status_json 400 (BodyError (JStr missing_fields))
     else
       result <- call (insertSentimentAnalysis
                         (analysis_data text predicted_class confidence
                                        all_probabilities)) ;;
       if truthy (promise_prop result "success") then
         r <- promise_all getSentimentStats getChartData ;;
         broadcastDataUpdate ;;;
         json (BodySaved (promise_prop result "data") (fst r) (snd r))
       else
         status_json 500 (BodyError (promise_prop result "error")))
    (fun _ =>
       console_log "Error saving sentiment:" ;;;
       status_json 500 (BodyError (JStr "Internal server error"))).

End Handler.

Definition post_save_sentiment (table_coerce : list JsValue -> Exc Pg.Columns)
  : JsValue -> M Response :=
  save_sentiment (PostgresDB.insertSentimentAnalysis table_coerce).

(** app.get('/api/sentiment-data'); [limit] is [req.query.limit] when it
    is a plain string ([None]: the parameter is not given). *)
Definition sentiment_data (limit : option string) : M Response :=
  try_catch
    (allData <- getAllSentimentData ;;
     let data :=
       match limit with
       | Some l =>
           if truthy (JStr l) then slice_to (parseInt l) allData else allData
       | None => allData
       end in
     json (BodyData data (Z.of_nat (List.length allData))))
    (fun _ =>
       console_log "Error getting sentiment data:" ;;;
       status_json 500 (BodyError (JStr "Failed to retrieve sentiment data"))).

(** app.delete('/api/clear-data') *)
Definition clear_data : M Response :=
  try_catch
    (result <- clearAllData ;;
     match result with
     | ClearOk _ => broadcastDataUpdate ;;; json BodyCleared
     | ClearFail error =>
         status_json 500
           (BodyError (or_else (JStr error) (JStr "Failed to clear data")))
     end)
    (fun _ =>
       console_log "Error clearing data:" ;;;
       status_json 500 (BodyError (JStr "Failed to clear data"))).

End Server.

(** ** src/server.js: the server without the broadcast *)

Module ServerJs.
Import Runtime PostgresDB Http.
Local Open Scope js_scope.

Section Handler.
Variable insertSentimentAnalysis : JsValue -> M InsertResult.

(** app.post('/api/save-sentiment') *)
Definition save_sentiment (req_body : JsValue) : M Response :=
  try_catch
    (text <- prop req_body "text" ;;
     predicted_class <- prop req_body "predicted_class" ;;
     confidence <- prop req_body "confidence" ;;
     all_probabilities <- prop req_body "all_probabilities" ;;
     if negb (truthy text) || negb (truthy predicted_class)
        || negb (truthy confidence) || negb (truthy all_probabilities)
     then status_json 400 (BodyError (JStr missing_fields))
     else
       result <- call (insertSentimentAnalysis
                         (Server.analysis_data text predicted_class confidence
                                               all_probabilities)) ;;
       if truthy (promise_prop result "success") then
         r <- promise_all getSentimentStats getChartData ;;
         json (BodySaved (promise_prop result "data") (fst r) (snd r))
       else
         status_json 500 (BodyError (promise_prop result "error")))
    (fun _ =>
       console_log "Error saving sentiment:" ;;;
       status_json 500 (BodyError (JStr "Internal server error"))).

End Handler.

Definition post_save_sentiment (table_coerce : list JsValue -> Exc Pg.Columns)
  : JsValue -> M Response :=
  save_sentiment (PostgresDB.insertSentimentAnalysis table_coerce).

(** app.delete('/api/clear-data') *)
Definition clear_data : M Response :=
  try_catch
    (result <- clearAllData ;;
     match result with
     | ClearOk _ => json BodyCleared
     | ClearFail error =>
         status_json 500
           (BodyError (or_else (JStr error) (JStr "Failed to clear data")))
     end)
    (fun _ =>
       console_log "Error clearing data:" ;;;
       status_json 500 (BodyError (JStr "Failed to clear data"))).

End ServerJs.

(** ** Sample data for concrete runs *)

Module Samples.
Import Pg Runtime.

(** The payload of the scenario of section 8 of the specification. *)
Definition triple : JsValue :=
  JObj [("positive", JNum (95 # 100)); ("negative", JNum (3 # 100));
        ("neutral", JNum (2 # 100))].

Definition great_product : JsValue :=
  JObj [("text", JStr "great product"); ("predicted_class", JStr "positive");
        ("confidence", JNum (95 # 100)); ("all_probabilities", triple)].

(** The same payload with a [source] of the caller's own. *)
Definition great_product_from_batch : JsValue :=
  JObj [("text", JStr "great product"); ("predicted_class", JStr "positive");
        ("confidence", JNum (95 # 100)); ("all_probabilities", triple);
        ("source", JStr "batch_import")].

(** A record for the adapter in which [text] is missing. *)
Definition no_text : JsValue :=
  JObj [("predicted_class", JStr "positive"); ("confidence", JNum (95 # 100));
        ("all_probabilities", triple)].

(** A request whose confidence is zero. *)
Definition zero_confidence : JsValue :=
  JObj [("text", JStr "no idea"); ("predicted_class", JStr "neutral");
        ("confidence", JNum 0); ("all_probabilities", triple)].

Definition empty_db : Db := mkDb [] 1 1000 [].

(** The rows the first two records become in [empty_db] when the table
    takes them. *)
Definition stored_great_product : Row :=
  mkRow 1 (Some "great product") (Some "positive") (Some (95 # 100))
        (Some (95 # 100)) (Some (3 # 100)) (Some (2 # 100))
        (Some "web_analyzer") 1000 1000.

Definition stored_no_text : Row :=
  mkRow 1 None (Some "positive") (Some (95 # 100)) (Some (95 # 100))
        (Some (3 # 100)) (Some (2 # 100)) (Some "web_analyzer") 1000 1000.

Definition sample_row (i : Z) (class : string) (conf : Q) (at_ : Z) : Row :=
  mkRow i (Some "sample") (Some class) (Some conf) (Some conf) (Some 0%Q)
        (Some 0%Q) (Some "web_analyzer") at_ at_.

(** Five stored records, not in order of creation. *)
Definition five_rows : list Row :=
  [sample_row 1 "positive" (9 # 10) 10; sample_row 2 "negative" (8 # 10) 20;
   sample_row 3 "positive" (85 # 100) 50; sample_row 4 "neutral" (1 # 3) 25;
   sample_row 5 "positive" (2 # 3) 40].

Definition five_db : Db := mkDb five_rows 6 1000 [].

Definition connected (db : Db) : World := mkWorld (Some db) [] None [].

(** No DATABASE_URL: the pool stays null. *)
Definition degraded : World := mkWorld None [] None [].

(** A connected process whose socket layer throws on emit and whose
    database connection fails on the second statement it receives. *)
Definition flaky : World :=
  mkWorld (Some (mkDb five_rows 6 1000 [None; Some "connection terminated"]))
          [] (Some "socket closed") [].

End Samples.

(** ** Vocabulary of the properties *)

Module Spec.
Import Pg Runtime PostgresDB Http.

(** [a] comes before [b] in a list in descending order of [key]. *)
Definition desc {A : Type} (key : A -> Z) (a b : A) : Prop := key b <= key a.

(** The computation never throws: from every world it returns a value. *)
Definition returns {A : Type} (m : M A) : Prop :=
  forall w, exists a w', m w = (Ret a, w').

(** The four fields the save-sentiment handlers require. *)
Definition required_fields : list string :=
  ["text"; "predicted_class"; "confidence"; "all_probabilities"].

(** The world after one more line on the console. *)
Definition logged (label : string) (w : World) : World :=
  mkWorld (pool w) (emitted w) (io_error w) (console w ++ [label]).

(** The world with its database replaced. *)
Definition with_db (w : World) (db : Db) : World :=
  mkWorld (Some db) (emitted w) (io_error w) (console w).

(** The row an accepted INSERT stores. *)
Definition stored_row (db : Db) (c : Columns) : Row :=
  mkRow (next_id db) (col_text c) (col_predicted_class c) (col_confidence c)
        (col_positive_prob c) (col_negative_prob c) (col_neutral_prob c)
        (col_source c) (now db) (now db).



(** The record the save-sentiment handlers build from a request body. *)
Definition handed_to_insert (req_body : JsValue) : JsValue :=
  Server.analysis_data (field req_body "text")
    (field req_body "predicted_class") (field req_body "confidence")
    (field req_body "all_probabilities").

(** The socket side of the world is left alone. *)
Definition same_socket (w w' : World) : Prop :=
  emitted w' = emitted w /\ io_error w' = io_error w.

Definition keeps_socket {A : Type} (m : M A) : Prop :=
  forall w r w', m w = (r, w') -> same_socket w w'.

(** The answer of the clear-data handlers as a function of what
    clearAllData resolved to. *)
Definition clear_response (result : ClearResult) : Response :=
  match result with
  | ClearOk _ => mkResponse 200 BodyCleared
  | ClearFail error =>
      mkResponse 500 (BodyError (or_else (JStr error)
                                         (JStr "Failed to clear data")))
  end.

(** The rows of one class, their recorded (non-NULL) confidences, and
    the arithmetic mean. *)
Definition in_class (c : option string) (rows : list Row) : list Row :=
  filter (fun r => class_eqb (Pg.predicted_class r) c) rows.

Definition recorded_confidences (rows : list Row) : list Q :=
  flat_map (fun r => match confidence r with Some q => [q] | None => [] end)
           rows.

Definition Qsum (l : list Q) : Q := fold_right Qplus 0%Q l.

Definition mean (l : list Q) : option Q :=
  match l with
  | [] => None
  | _ => Some (Qsum l / inject_Z (Z.of_nat (List.length l)))%Q
  end.

(** [r] is [x] rounded to the nearest multiple of [1/scale]: to 2 decimal
    places for scale 100, to 4 for scale 10000. *)
Definition rounded_to (scale : BinNums.positive) (x r : Q) : Prop :=
  (exists k : Z, r = k # scale) /\ (Qabs (r - x) <= 1 # (2 * scale))%Q.

(** A group holds the aggregates of the rows of its class. *)
Definition summarises (rows : list Row) (g : Group) : Prop :=
  g_count g = Z.of_nat (List.length (in_class (g_class g) rows)) /\
  (g_sum g == Qsum (recorded_confidences (in_class (g_class g) rows)))%Q /\
  g_nonnull g
  = Z.of_nat (List.length (recorded_confidences (in_class (g_class g) rows))).

(** One group per class present, each summarising its rows. *)
Definition groups_of (rows : list Row) (gs : list Group) : Prop :=
  NoDup (map g_class gs) /\
  (forall c, In c (map g_class gs) <->
             exists r, In r rows /\ Pg.predicted_class r = c) /\
  Forall (summarises rows) gs.

End Spec.

(** ** The remaining routes of both servers

    The handlers of /api/health, /api/sentiment-stats and /api/chart-data
    read the same in src/server.js and in src/unnamed/part_000. *)

Module Routes.
Import Runtime PostgresDB Http.
Local Open Scope js_scope.

(** The JSON bodies of these routes. *)
Inductive Reply : Type :=
| Health (total_entries : Z) (database_type connection_status : string)
         (last_updated : option Z) (timestamp : string)
    (* { status: 'OK', message: 'Database API is running',
         database: {...}, timestamp } *)
| HealthError (error : string) (timestamp : string)
    (* { status: 'ERROR', message: 'Database connection failed',
         error, timestamp } *)
| Stats (statistics : list Stat) (chart_data : list ChartEntry)
        (recent_entries : list Entry) (database_info : Z * option Z * string)
    (* { success: true, statistics, chart_data, recent_entries,
         database_info } *)
| Chart (chart_data : list ChartEntry)
    (* { success: true, chart_data } *)
| Failure (error : string).
    (* { success: false, error } *)

Record Answer : Type := mkAnswer {
  code : Z;
  reply : Reply
}.

(** [s || fallback] on strings *)
Definition string_or (s fallback : string) : string :=
  if String.eqb s "" then fallback else s.

Section Clock.
(** [new Date().toISOString()] at the time of the answer. *)
Variable timestamp : string.

(** app.get('/api/health') *)
Definition health : M Answer :=
  try_catch
    (dbInfo <- getDatabaseInfo ;;
     ret (mkAnswer 200
            (Health (total_entries dbInfo)
                    (string_or (database_type dbInfo) "PostgreSQL")
                    (string_or (connection_status dbInfo) "unknown")
                    (last_updated dbInfo) timestamp)))
    (fun message =>
       console_log "Health check error:" ;;;
       ret (mkAnswer 500 (HealthError message timestamp))).

End Clock.

(** app.get('/api/sentiment-stats') *)
Definition sentiment_stats : M Answer :=
  try_catch
    (r <- promise_all getSentimentStats
           (promise_all getChartData
              (promise_all (getRecentEntries (Some 5)) getDatabaseInfo)) ;;
     let '(stats, (chartData, (recentEntries, dbInfo))) := r in
     ret (mkAnswer 200
            (Stats stats chartData recentEntries
                   (Server.database_info_of dbInfo))))
    (fun _ =>
       console_log "Error getting sentiment stats:" ;;;
       ret (mkAnswer 500 (Failure "Failed to retrieve sentiment statistics"))).

(** app.get('/api/chart-data') *)
Definition chart_data_route : M Answer :=
  try_catch
    (chartData <- getChartData ;; ret (mkAnswer 200 (Chart chartData)))
    (fun _ =>
       console_log "Error getting chart data:" ;;;
       ret (mkAnswer 500 (Failure "Failed to retrieve chart data"))).

End Routes.

(** ** The proxy routes of src/unnamed/part_000 *)

Module Proxy.
Import Runtime.
Local Open Scope js_scope.

(** What [fetch] and then [response.json()] come to: the request could
    not be made, or the classifier answered with a status and a body
    that parses as JSON or does not. *)
Inductive Upstream : Type :=
| Unreachable (message : string)
| Responded (status : Z) (json : Exc JsValue).

(** [response.ok] *)
Definition ok (status : Z) : bool := (200 <=? status) && (status <=? 299).

(** [res.status(code).json(body)] with any JSON value as body. *)
Record Relay : Type := mkRelay {
  relay_status : Z;
  relay_body : JsValue
}.

Definition connect_error : JsValue :=
  JObj [("error", JStr "Failed to connect to ML API")].

Section Fetch.
(** The classifier behind [fetch(url, { method: 'POST', body })]. *)
Variable fetch : string -> JsValue -> Upstream.

Definition forward (url label : string) (req_body : JsValue) : M Relay :=
  try_catch
    (match fetch url req_body with
     | Unreachable message => throw message
     | Responded status json =>
         if negb (ok status) then
           match json with
           | Ret errorData => ret (mkRelay status errorData)
           | Throw message => throw message
           end
         else
           match json with
           | Ret data => ret (mkRelay 200 data)
           | Throw message => throw message
           end
     end)
    (fun _ => console_log label ;;; ret (mkRelay 500 connect_error)).

(** app.post('/api/predict') *)
Definition predict : JsValue -> M Relay :=
  forward "https://sentiment-4c5g.onrender.com/predict"
          "ML API predict error:".

(** app.post('/api/batch_predict') *)
Definition batch_predict : JsValue -> M Relay :=
  forward "https://sentiment-4c5g.onrender.com/batch_predict"
          "ML API batch_predict error:".

End Fetch.

End Proxy.

(** ** Start and shutdown *)

Module Lifecycle.
Import Runtime PostgresDB.
Local Open Scope js_scope.

(** How the process goes on after a top-level async function. *)
Inductive Outcome : Type :=
| Running
| Exit (code : Z).

(** The start-up block of both servers:
    [try { await initializeDatabase() } catch { process.exit(1) }] *)
Definition startup : M Outcome :=
  try_catch
    (initializeDatabase ;;; ret Running)
    (fun _ => console_log "Failed to initialize database:" ;;; ret (Exit 1)).

(** [pool.end()]: a TypeError on the null pool. *)
Definition pool_end : M unit :=
  fun w =>
    match pool w with
    | None => (Throw "Cannot read properties of null (reading 'end')", w)
    | Some _ => (Ret tt, w)
    end.

(** The SIGINT listener of postgresDB.js:
    [await pool.end(); process.exit(0)] *)
Definition on_sigint : M Outcome :=
  pool_end ;;; ret (Exit 0).

End Lifecycle.

(** ** Further sample data *)

Module Cases.
Import Pg Runtime.

(** A table with a row whose class is NULL. *)
Definition unlabelled_db : Db :=
  mkDb [Samples.stored_no_text;
        mkRow 2 (Some "unlabelled") None (Some (1 # 2)) None None None
              (Some "web_analyzer") 1000 1000] 3 1000 [].

(** A connected process whose next statement times out. *)
Definition timing_out : World :=
  mkWorld (Some (mkDb Samples.five_rows 6 1000 [Some "timeout"])) [] None [].

End Cases.

(** ** Vocabulary of the further properties *)

Module Props.
Import Pg Runtime PostgresDB Http.

(** The stored rows, the id sequence and the clock are as before; only
    the script of faults may have advanced. *)
Definition same_store (w w' : World) : Prop :=
  match pool w, pool w' with
  | None, None => True
  | Some db, Some db' =>
      table db' = table db /\ next_id db' = next_id db /\ now db' = now db
  | _, _ => False
  end.

Definition keeps_store {A : Type} (m : M A) : Prop :=
  forall w r w', m w = (r, w') -> same_store w w'.

Definition Zsum (l : list Z) : Z := fold_right Z.add 0 l.

(** The [created_at] of the newest entry of a list that is newest
    first. *)
Definition newest (entries : list Entry) : option Z :=
  match entries with
  | [] => None
  | e :: _ => Some (created_at (row e))
  end.

(** The world after a broadcast that went through. *)
Definition broadcast_done (w : World) (payload : UpdateData) : World :=
  mkWorld (pool w) (emitted w ++ [payload]) (io_error w)
          (console w ++ ["Broadcasting data update to all clients"]).

(** The statement the pool receives next fails. *)
Definition next_fails (w : World) (message : string) : Prop :=
  exists db rest, pool w = Some db /\ faults db = Some message :: rest.

End Props.

(** * Properties *)

Import Pg Runtime PostgresDB Http Spec.
Import Props.

(** ** Sorting *)

Section OrderByFacts.
Context {A : Type} (key : A -> Z).

Lemma insert_desc_perm (r : A) (l : list A) :
  Permutation (insert_desc key r l) (r :: l).
Proof.
  induction l as [|x l IH]; simpl.
  - apply Permutation_refl.
  - destruct (key x <=? key r).
    + apply Permutation_refl.
    + eapply perm_trans; [apply perm_skip, IH | apply perm_swap].
Qed.

Lemma order_by_desc_perm (l : list A) : Permutation (order_by_desc key l) l.
Proof.
  induction l as [|x l IH]; simpl.
  - constructor.
  - eapply perm_trans; [apply insert_desc_perm | now apply perm_skip].
Qed.

Lemma insert_desc_sorted (r : A) (l : list A) :
  StronglySorted (desc key) l -> StronglySorted (desc key) (insert_desc key r l).
Proof.
  induction 1 as [|x l Hs IH Hx]; simpl.
  - repeat constructor.
  - destruct (key x <=? key r) eqn:E.
    + apply Z.leb_le in E. constructor.
      * now constructor.
      * constructor; [exact E|].
        eapply Forall_impl; [|exact Hx]. unfold desc. intros; lia.
    + apply Z.leb_gt in E. constructor; [exact IH|].
      eapply Permutation_Forall;
        [apply Permutation_sym, insert_desc_perm|].
      constructor; [unfold desc; lia | exact Hx].
Qed.

Lemma order_by_desc_sorted (l : list A) :
  StronglySorted (desc key) (order_by_desc key l).
Proof.
  induction l; simpl; [constructor | now apply insert_desc_sorted].
Qed.

Lemma order_by_desc_length (l : list A) :
  List.length (order_by_desc key l) = List.length l.
Proof. apply Permutation_length, order_by_desc_perm. Qed.

End OrderByFacts.

(** ** Computations that always return *)

Lemma returns_ret {A : Type} (a : A) : returns (ret a).
Proof. intros w. now exists a, w. Qed.

Lemma returns_bind {A B : Type} (m : M A) (k : A -> M B) :
  returns m -> (forall a, returns (k a)) -> returns (bind m k).
Proof.
  intros Hm Hk w. destruct (Hm w) as (a & w' & E).
  unfold bind. rewrite E. apply Hk.
Qed.

Lemma returns_try_catch {A : Type} (m : M A) (h : string -> M A) :
  (forall e, returns (h e)) -> returns (try_catch m h).
Proof.
  intros Hh w. unfold try_catch.
  destruct (m w) as [[a|e] w'].
  - now exists a, w'.
  - apply Hh.
Qed.

Lemma returns_console_log (label : string) : returns (console_log label).
Proof. intros w. unfold console_log. eauto. Qed.

Lemma returns_has_pool : returns has_pool.
Proof. intros w. unfold has_pool. eauto. Qed.

Lemma returns_if {A : Type} (b : bool) (m1 m2 : M A) :
  returns m1 -> returns m2 -> returns (if b then m1 else m2).
Proof. now destruct b. Qed.

Lemma returns_promise_all {A B : Type} (m1 : M A) (m2 : M B) :
  returns m1 -> returns m2 -> returns (promise_all m1 m2).
Proof.
  intros H1 H2 w. unfold promise_all.
  destruct (H1 w) as (a & w1 & E1). rewrite E1.
  destruct (H2 w1) as (b & w2 & E2). rewrite E2. eauto.
Qed.

Ltac guarded :=
  apply returns_bind; [apply returns_has_pool | intros [|]; simpl];
  [ apply returns_try_catch; intros;
    apply returns_bind; [apply returns_console_log | intros; apply returns_ret]
  | apply returns_ret ].


Lemma getAllSentimentData_returns : returns getAllSentimentData.
Proof. unfold getAllSentimentData. guarded. Qed.

Lemma getSentimentStats_returns : returns getSentimentStats.
Proof. unfold getSentimentStats. guarded. Qed.

Lemma getRecentEntries_returns limit : returns (getRecentEntries limit).
Proof. unfold getRecentEntries. guarded. Qed.

Lemma getDatabaseStats_returns : returns getDatabaseStats.
Proof. unfold getDatabaseStats. guarded. Qed.

Lemma getDatabaseInfo_returns : returns getDatabaseInfo.
Proof. unfold getDatabaseInfo. guarded. Qed.

Lemma clearAllData_returns : returns clearAllData.
Proof. unfold clearAllData. guarded. Qed.

Lemma getChartData_returns : returns getChartData.
Proof.
  unfold getChartData. apply returns_try_catch. intros.
  apply returns_bind; [apply returns_console_log | intros; apply returns_ret].
Qed.

(** ** The save-sentiment handlers *)

Lemma save_sentiment_object insert props w :
  Server.save_sentiment insert (JObj props) w =
  if negb (truthy (lookup "text" props))
     || negb (truthy (lookup "predicted_class" props))
     || negb (truthy (lookup "confidence" props))
     || negb (truthy (lookup "all_probabilities" props))
  then (Ret (mkResponse 400 (BodyError (JStr missing_fields))), w)
  else (Ret (mkResponse 500 (BodyError JUndefined)),
        snd (insert (Server.analysis_data
                       (lookup "text" props) (lookup "predicted_class" props)
                       (lookup "confidence" props)
                       (lookup "all_probabilities" props)) w)).
Proof.
  unfold Server.save_sentiment, try_catch, bind, prop, get_prop, ret, call,
    status_json.
  destruct (negb (truthy (lookup "text" props))
            || negb (truthy (lookup "predicted_class" props))
            || negb (truthy (lookup "confidence" props))
            || negb (truthy (lookup "all_probabilities" props))).
  - reflexivity.
  - destruct (insert _ w) as [r w']. reflexivity.
Qed.

Lemma save_sentiment_js_object insert props w :
  ServerJs.save_sentiment insert (JObj props) w =
  Server.save_sentiment insert (JObj props) w.
Proof.
  unfold ServerJs.save_sentiment, Server.save_sentiment, try_catch, bind,
    prop, get_prop, ret, call, status_json.
  destruct (negb (truthy (lookup "text" props))
            || negb (truthy (lookup "predicted_class" props))
            || negb (truthy (lookup "confidence" props))
            || negb (truthy (lookup "all_probabilities" props))).
  - reflexivity.
  - destruct (insert _ w) as [r w']. reflexivity.
Qed.

(** A missing or falsy required field stops the request before the
    insert function is called. *)
Lemma falsy_field_rejected insert props w k :
  In k required_fields -> truthy (lookup k props) = false ->
  Server.save_sentiment insert (JObj props) w =
  (Ret (mkResponse 400 (BodyError (JStr missing_fields))), w).
Proof.
  intros Hk Hf. rewrite save_sentiment_object.
  simpl in Hk.
  destruct Hk as [<-|[<-|[<-|[<-|[]]]]]; rewrite Hf; simpl;
    rewrite ?orb_true_r; reflexivity.
Qed.

(** Whatever the request and whatever the adapter does, the handler
    never answers 200: the insert call is not awaited, so the object it
    tests is a pending promise. *)
Lemma save_sentiment_never_200 insert req_body w :
  exists resp w',
    Server.save_sentiment insert req_body w = (Ret resp, w') /\
    ServerJs.save_sentiment insert req_body w = (Ret resp, w') /\
    (status resp = 400 \/ status resp = 500).
Proof.
  destruct req_body as [| |b|q|s|items|props];
    try (eexists; eexists; split; [reflexivity|split; [reflexivity|simpl; auto]]).
  pose proof (save_sentiment_js_object insert props w) as E1.
  pose proof (save_sentiment_object insert props w) as E2.
  rewrite E2 in E1.
  destruct (_ || _); eexists; eexists;
    (split; [exact E2|split; [exact E1|]]); simpl; auto.
Qed.

(** C1 (the request of the scenario of section 8, on a connected store
    that accepts the row): the insert operation succeeds and returns the
    record with its id, the row is in the table, and still both servers
    answer 500 with no error message, without recomputing statistics
    and without a broadcast. *)
Theorem save_sentiment_answers_500_although_inserted :
  insertSentimentAnalysis Tables.required_table
    (Server.analysis_data (JStr "great product") (JStr "positive")
       (JNum (95 # 100)) Samples.triple)
    (Samples.connected Samples.empty_db)
  = (Ret (InsertOk 1 (reshape Samples.stored_great_product)),
     Samples.connected (mkDb [Samples.stored_great_product] 2 1000 [])) /\
  Server.post_save_sentiment Tables.required_table Samples.great_product
    (Samples.connected Samples.empty_db)
  = (Ret (mkResponse 500 (BodyError JUndefined)),
     Samples.connected (mkDb [Samples.stored_great_product] 2 1000 [])) /\
  ServerJs.post_save_sentiment Tables.required_table Samples.great_product
    (Samples.connected Samples.empty_db)
  = (Ret (mkResponse 500 (BodyError JUndefined)),
     Samples.connected (mkDb [Samples.stored_great_product] 2 1000 [])) /\
  emitted (Samples.connected (mkDb [Samples.stored_great_product] 2 1000 []))
  = [].
Proof. repeat split; reflexivity. Qed.

(** C3: a request whose confidence is the number 0, or whose text is the
    empty string, is answered 400 with the missing-fields error by both
    servers, and the insert function is not called: the outcome is the
    same for every insert function and the world is left as it was. *)
Theorem zero_confidence_or_empty_text_is_rejected :
  forall (insert : JsValue -> M InsertResult) (props : list (string * JsValue))
         (w : World),
    (exists q, lookup "confidence" props = JNum q /\ (q == 0)%Q)
    \/ lookup "text" props = JStr "" ->
    Server.save_sentiment insert (JObj props) w =
      (Ret (mkResponse 400 (BodyError (JStr missing_fields))), w) /\
    ServerJs.save_sentiment insert (JObj props) w =
      (Ret (mkResponse 400 (BodyError (JStr missing_fields))), w).
Proof.
  intros insert props w H.
  assert (E : Server.save_sentiment insert (JObj props) w =
              (Ret (mkResponse 400 (BodyError (JStr missing_fields))), w)).
  { destruct H as [(q & Hq & Hz)|Ht].
    - apply (falsy_field_rejected insert props w "confidence").
      + simpl; auto.
      + rewrite Hq. simpl. apply Qeq_bool_iff in Hz. now rewrite Hz.
    - apply (falsy_field_rejected insert props w "text").
      + simpl; auto.
      + now rewrite Ht. }
  split; [exact E|].
  etransitivity; [apply save_sentiment_js_object | exact E].
Qed.

Lemma zero_confidence_or_empty_text_is_rejected_witness :
  ((exists q, lookup "confidence"
                [("text", JStr "no idea"); ("predicted_class", JStr "neutral");
                 ("confidence", JNum 0); ("all_probabilities", Samples.triple)]
              = JNum q /\ (q == 0)%Q)
   \/ lookup "text"
        [("text", JStr "no idea"); ("predicted_class", JStr "neutral");
         ("confidence", JNum 0); ("all_probabilities", Samples.triple)]
      = JStr "") /\
  Server.save_sentiment (insertSentimentAnalysis Tables.required_table)
    Samples.zero_confidence (Samples.connected Samples.empty_db) =
    (Ret (mkResponse 400 (BodyError (JStr missing_fields))),
     Samples.connected Samples.empty_db).
Proof.
  assert (H : (exists q, lookup "confidence"
                [("text", JStr "no idea"); ("predicted_class", JStr "neutral");
                 ("confidence", JNum 0); ("all_probabilities", Samples.triple)]
              = JNum q /\ (q == 0)%Q)
   \/ lookup "text"
        [("text", JStr "no idea"); ("predicted_class", JStr "neutral");
         ("confidence", JNum 0); ("all_probabilities", Samples.triple)]
      = JStr "").
  { left. exists 0%Q. split; reflexivity. }
  split; [exact H|].
  exact (proj1 (zero_confidence_or_empty_text_is_rejected
                  (insertSentimentAnalysis Tables.required_table) _
                  (Samples.connected Samples.empty_db) H)).
Defined.

(** ** Degraded mode *)

(** C4: with no pool configured every adapter operation returns without
    throwing and leaves the world as it was: the list, recent and
    statistics operations (and the chart projection) return the empty
    list, the count-and-last-updated query returns zero entries and no
    date, insert and delete-all return success:false with the message
    'PostgreSQL not configured'. *)
Theorem degraded_mode_operations_are_noops :
  forall (table_coerce : list JsValue -> Exc Columns) (w : World)
         (analysisData : JsValue) (limit : option Z),
    pool w = None ->
    getAllSentimentData w = (Ret [], w) /\
    getRecentEntries limit w = (Ret [], w) /\
    getSentimentStats w = (Ret [], w) /\
    getChartData w = (Ret [], w) /\
    getDatabaseStats w = (Ret (0, None), w) /\
    getDatabaseInfo w =
      (Ret (mkDatabaseInfo 0 None "PostgreSQL (Not Configured)" "disconnected"),
       w) /\
    initializeDatabase w = (Ret (0, None, Some "fallback_mode"), w) /\
    insertSentimentAnalysis table_coerce analysisData w =
      (Ret (InsertFail "PostgreSQL not configured"), w) /\
    clearAllData w = (Ret (ClearFail "PostgreSQL not configured"), w).
Proof.
  intros table_coerce w d limit H.
  unfold getAllSentimentData, getRecentEntries, getChartData,
    getSentimentStats, getDatabaseStats, getDatabaseInfo, initializeDatabase,
    insertSentimentAnalysis, clearAllData, try_catch, bind, has_pool.
  rewrite H. simpl. repeat split; reflexivity.
Qed.

Lemma degraded_mode_operations_are_noops_witness :
  pool Samples.degraded = None /\
  getSentimentStats Samples.degraded = (Ret [], Samples.degraded) /\
  clearAllData Samples.degraded =
    (Ret (ClearFail "PostgreSQL not configured"), Samples.degraded).
Proof.
  split; [reflexivity|].
  pose proof (degraded_mode_operations_are_noops Tables.plain_table
                Samples.degraded Samples.no_text None eq_refl) as H.
  split; [apply H | apply H].
Defined.

(** ** Insert *)

Lemma insert_values_object props aprops w :
  lookup "all_probabilities" props = JObj aprops ->
  insert_values (JObj props) w =
  (Ret [lookup "text" props; lookup "predicted_class" props;
        lookup "confidence" props; lookup "positive" aprops;
        lookup "negative" aprops; lookup "neutral" aprops;
        or_else (lookup "source" props) (JStr "web_analyzer")], w).
Proof.
  intros H. unfold insert_values, bind, prop, get_prop, ret.
  rewrite H. reflexivity.
Qed.

Lemma insert_values_pure d w :
  exists r, insert_values d w = (r, w).
Proof.
  unfold insert_values, bind, prop, ret, throw.
  destruct (get_prop d "text"); [|eauto].
  destruct (get_prop d "predicted_class"); [|eauto].
  destruct (get_prop d "confidence"); [|eauto].
  destruct (get_prop d "all_probabilities") as [ap|]; [|eauto].
  destruct (get_prop ap "positive"); [|eauto].
  destruct (get_prop ap "negative"); [|eauto].
  destruct (get_prop ap "neutral"); [|eauto].
  destruct (get_prop d "source"); eauto.
Qed.

(** What Insert does on a configured pool, by the outcome of building
    the parameters and of the statement. *)
Lemma insert_on_pool table_coerce d w db :
  pool w = Some db ->
  insertSentimentAnalysis table_coerce d w =
  match fst (insert_values d w) with
  | Throw msg => (Ret (InsertFail msg), logged "Error inserting data:" w)
  | Ret values =>
      match Pg.run (sql_insert table_coerce values) db with
      | (Ret (newEntry :: _), db') =>
          (Ret (InsertOk (id newEntry) (reshape newEntry)), with_db w db')
      | (Ret [], db') =>
          (Ret (InsertFail "Cannot read properties of undefined (reading 'id')"),
           logged "Error inserting data:" (with_db w db'))
      | (Throw msg, db') =>
          (Ret (InsertFail msg), logged "Error inserting data:" (with_db w db'))
      end
  end.
Proof.
  intros Hp.
  destruct (insert_values_pure d w) as [r E].
  unfold insertSentimentAnalysis, try_catch, bind, has_pool.
  rewrite Hp. simpl. fold (bind (A:=list JsValue) (B:=InsertResult)).
  unfold bind. rewrite E. simpl.
  destruct r as [values|msg]; [|reflexivity].
  unfold pool_query. rewrite Hp.
  destruct (Pg.run _ db) as [[[|newEntry rest]|msg] db']; reflexivity.
Qed.








(** ** Provenance *)

Lemma save_sentiment_calls_insert_at_most_once insert req_body w :
  (Server.save_sentiment insert req_body w =
     (Ret (mkResponse 500 (BodyError JUndefined)),
      snd (insert (handed_to_insert req_body) w)) /\
   ServerJs.save_sentiment insert req_body w =
     (Ret (mkResponse 500 (BodyError JUndefined)),
      snd (insert (handed_to_insert req_body) w)))
  \/
  (exists resp w',
     forall insert' : JsValue -> M InsertResult,
       Server.save_sentiment insert' req_body w = (Ret resp, w') /\
       ServerJs.save_sentiment insert' req_body w = (Ret resp, w')).
Proof.
  destruct req_body as [| |b|q|s|items|props];
    try (right; eexists; eexists; intros; split; reflexivity).
  destruct (negb (truthy (lookup "text" props))
            || negb (truthy (lookup "predicted_class" props))
            || negb (truthy (lookup "confidence" props))
            || negb (truthy (lookup "all_probabilities" props))) eqn:E.
  - right. eexists; eexists. intros insert'.
    pose proof (save_sentiment_object insert' props w) as E2.
    pose proof (save_sentiment_js_object insert' props w) as E1.
    rewrite E2 in E1. rewrite E in E1, E2. split; [exact E2 | exact E1].
  - left.
    pose proof (save_sentiment_object insert props w) as E2.
    pose proof (save_sentiment_js_object insert props w) as E1.
    rewrite E2 in E1. rewrite E in E1, E2. split; [exact E2 | exact E1].
Qed.

(** C10: the record the save-sentiment handlers hand to the insert
    function has [source] 'web_analyzer' whatever the request body says:
    for every insert function the handler either answers without
    calling it, or calls it on that record; the adapter itself passes a
    truthy [source] of its caller on to the statement and falls back to
    'web_analyzer' otherwise. *)
Theorem save_sentiment_fixes_the_source :
  forall (req_body : JsValue) (w : World),
    field (handed_to_insert req_body) "source" = JStr "web_analyzer" /\
    (forall insert : JsValue -> M InsertResult,
       (Server.save_sentiment insert req_body w =
          (Ret (mkResponse 500 (BodyError JUndefined)),
           snd (insert (handed_to_insert req_body) w)) /\
        ServerJs.save_sentiment insert req_body w =
          (Ret (mkResponse 500 (BodyError JUndefined)),
           snd (insert (handed_to_insert req_body) w)))
       \/
       (exists resp w',
          forall insert' : JsValue -> M InsertResult,
            Server.save_sentiment insert' req_body w = (Ret resp, w') /\
            ServerJs.save_sentiment insert' req_body w = (Ret resp, w'))) /\
    (forall props aprops,
       lookup "all_probabilities" props = JObj aprops ->
       fst (insert_values (JObj props) w) =
       Ret [lookup "text" props; lookup "predicted_class" props;
            lookup "confidence" props; lookup "positive" aprops;
            lookup "negative" aprops; lookup "neutral" aprops;
            if truthy (lookup "source" props) then lookup "source" props
            else JStr "web_analyzer"]).
Proof.
  intros req_body w. split; [reflexivity|]. split.
  - intros insert. apply save_sentiment_calls_insert_at_most_once.
  - intros props aprops H. now rewrite (insert_values_object _ _ _ H).
Qed.

Lemma save_sentiment_fixes_the_source_witness :
  lookup "all_probabilities"
    [("text", JStr "great product"); ("predicted_class", JStr "positive");
     ("confidence", JNum (95 # 100)); ("all_probabilities", Samples.triple);
     ("source", JStr "batch_import")]
  = JObj [("positive", JNum (95 # 100)); ("negative", JNum (3 # 100));
          ("neutral", JNum (2 # 100))] /\
  fst (insert_values Samples.great_product_from_batch
         (Samples.connected Samples.empty_db))
  = Ret [JStr "great product"; JStr "positive"; JNum (95 # 100);
         JNum (95 # 100); JNum (3 # 100); JNum (2 # 100);
         JStr "batch_import"].
Proof.
  split; [reflexivity|].
  exact (proj2 (proj2
    (save_sentiment_fixes_the_source Samples.great_product_from_batch
       (Samples.connected Samples.empty_db)))
    [("text", JStr "great product"); ("predicted_class", JStr "positive");
     ("confidence", JNum (95 # 100)); ("all_probabilities", Samples.triple);
     ("source", JStr "batch_import")]
    [("positive", JNum (95 # 100)); ("negative", JNum (3 # 100));
     ("neutral", JNum (2 # 100))]
    eq_refl).
Defined.

(** A request that names its own source is stored as 'web_analyzer',
    while the adapter called directly keeps the caller's tag. *)
Example source_of_the_request_is_ignored :
  snd (Server.post_save_sentiment Tables.required_table
         Samples.great_product_from_batch (Samples.connected Samples.empty_db))
  = Samples.connected (mkDb [Samples.stored_great_product] 2 1000 []) /\
  option_map source
    (match pool (snd (insertSentimentAnalysis Tables.required_table
                        Samples.great_product_from_batch
                        (Samples.connected Samples.empty_db))) with
     | Some db => hd_error (table db)
     | None => None
     end) = Some (Some "batch_import").
Proof. split; reflexivity. Qed.

(** ** Delete-all *)

Lemma firstn_nil_any {A : Type} (n : nat) : firstn n (@nil A) = [].
Proof. now destruct n. Qed.

(** C7: on a configured pool with a working connection, delete-all
    empties the table and reports success; called again it reports
    success again and changes nothing; afterwards the list, recent,
    statistics and chart queries return empty lists and the count query
    returns zero entries and no last-updated date. *)
Theorem clear_all_data_is_idempotent :
  forall (w : World) (db : Db) (limit : option Z),
    pool w = Some db -> faults db = [] ->
    clearAllData w =
      (Ret (ClearOk "All data cleared successfully"),
       with_db w (with_table db [])) /\
    clearAllData (with_db w (with_table db [])) =
      (Ret (ClearOk "All data cleared successfully"),
       with_db w (with_table db [])) /\
    getAllSentimentData (with_db w (with_table db [])) =
      (Ret [], with_db w (with_table db [])) /\
    fst (getRecentEntries limit (with_db w (with_table db []))) = Ret [] /\
    getSentimentStats (with_db w (with_table db [])) =
      (Ret [], with_db w (with_table db [])) /\
    getChartData (with_db w (with_table db [])) =
      (Ret [], with_db w (with_table db [])) /\
    getDatabaseStats (with_db w (with_table db [])) =
      (Ret (0, None), with_db w (with_table db [])).
Proof.
  intros w db limit Hp Hf.
  destruct w as [p e i c]. destruct db as [t nid nw fs].
  simpl in Hp, Hf. subst p fs.
  repeat split; try reflexivity.
  unfold getRecentEntries, try_catch, bind, has_pool, pool_query, with_db,
    with_table, Pg.run, sql_select_recent. simpl.
  destruct limit as [n|]; simpl.
  - destruct (n <? 0); simpl; [reflexivity|].
    now rewrite firstn_nil_any.
  - reflexivity.
Qed.

Lemma clear_all_data_is_idempotent_witness :
  pool (Samples.connected Samples.five_db) = Some Samples.five_db /\
  faults Samples.five_db = [] /\
  clearAllData (Samples.connected (mkDb [] 6 1000 [])) =
    (Ret (ClearOk "All data cleared successfully"),
     Samples.connected (mkDb [] 6 1000 [])).
Proof.
  split; [reflexivity|]. split; [reflexivity|].
  exact (proj1 (proj2
    (clear_all_data_is_idempotent (Samples.connected Samples.five_db)
       Samples.five_db None eq_refl eq_refl))).
Defined.

(** ** GET /api/sentiment-data *)

Lemma map_row_reshape (l : list Row) : map row (map reshape l) = l.
Proof. induction l; simpl; congruence. Qed.


Lemma slice_to_firstn {A : Type} (n : nat) (l : list A) :
  slice_to (Some (Z.of_nat n)) l = firstn n l.
Proof.
  unfold slice_to.
  destruct (Z.of_nat n <? 0) eqn:E; [apply Z.ltb_lt in E; lia|].
  destruct (Nat.le_gt_cases n (List.length l)) as [H|H].
  - rewrite Z.min_l by lia. now rewrite Nat2Z.id.
  - rewrite Z.min_r by lia. rewrite Nat2Z.id.
    rewrite firstn_all. symmetry. apply firstn_all2. lia.
Qed.

Lemma sorted_app_desc {A : Type} (key : A -> Z) (l1 l2 : list A) :
  StronglySorted (desc key) (l1 ++ l2) ->
  forall a b, In a l1 -> In b l2 -> key b <= key a.
Proof.
  induction l1 as [|x l1 IH]; simpl; intros Hs a b Ha Hb; [contradiction|].
  inversion Hs as [|? ? Hs' Hall]; subst.
  destruct Ha as [<-|Ha].
  - rewrite Forall_forall in Hall. apply Hall, in_or_app. now right.
  - now apply IH.
Qed.

Lemma sorted_map_reshape (l : list Row) :
  StronglySorted (desc created_at) l ->
  StronglySorted (desc (fun e => created_at (row e))) (map reshape l).
Proof.
  induction 1 as [|x l Hs IH Hx]; simpl; constructor; [exact IH|].
  rewrite Forall_map. exact Hx.
Qed.

(** C8: on a configured pool with a working connection the handler
    retrieves all records newest first (the list is a rearrangement of
    the table in descending order of [created_at]) and, given a limit
    that reads as the number [n], answers 200 with the first [n] of
    them, each at least as recent as every record left out, while
    [total] is the number of all records. *)
Theorem sentiment_data_truncates_after_retrieval :
  forall (w : World) (db : Db) (l : string) (n : nat),
    pool w = Some db -> faults db = [] ->
    parseInt l = Some (Z.of_nat n) ->
    Server.sentiment_data (Some l) w =
      (Ret (mkResponse 200
              (BodyData
                 (firstn n (map reshape (order_by_desc created_at (table db))))
                 (Z.of_nat (List.length (table db))))), w) /\
    Permutation (order_by_desc created_at (table db)) (table db) /\
    StronglySorted (desc (fun e => created_at (row e)))
      (map reshape (order_by_desc created_at (table db))) /\
    List.length (firstn n (map reshape (order_by_desc created_at (table db))))
      = Nat.min n (List.length (table db)) /\
    (forall kept left_out,
       In kept (firstn n (map reshape (order_by_desc created_at (table db)))) ->
       In left_out
          (skipn n (map reshape (order_by_desc created_at (table db)))) ->
       created_at (row left_out) <= created_at (row kept)).
Proof.
  intros w db l n Hp Hf Hl.
  pose proof (order_by_desc_sorted created_at (table db)) as Hs.
  apply sorted_map_reshape in Hs.
  split; [|split; [|split; [|split]]].
  - destruct w as [p e i c]. destruct db as [t nid nw fs].
    simpl in Hp, Hf. subst p fs.
    unfold Server.sentiment_data, try_catch, bind, getAllSentimentData,
      has_pool, pool_query, Pg.run, sql_select_all, json, ret. simpl.
    rewrite Hl, slice_to_firstn.
    destruct l as [|a l']; [discriminate|]. simpl.
    rewrite length_map, order_by_desc_length. reflexivity.
  - apply order_by_desc_perm.
  - exact Hs.
  - rewrite length_firstn, length_map, order_by_desc_length. reflexivity.
  - intros kept left_out Hk Ho.
    apply (sorted_app_desc (fun e => created_at (row e))
             (firstn n (map reshape (order_by_desc created_at (table db))))
             (skipn n (map reshape (order_by_desc created_at (table db)))));
      [rewrite firstn_skipn; exact Hs | exact Hk | exact Ho].
Qed.

Lemma sentiment_data_truncates_after_retrieval_witness :
  pool (Samples.connected Samples.five_db) = Some Samples.five_db /\
  faults Samples.five_db = [] /\
  parseInt "2" = Some (Z.of_nat 2) /\
  Server.sentiment_data (Some "2") (Samples.connected Samples.five_db) =
    (Ret (mkResponse 200
            (BodyData
               [reshape (Samples.sample_row 3 "positive" (85 # 100) 50);
                reshape (Samples.sample_row 5 "positive" (2 # 3) 40)]
               5)),
     Samples.connected Samples.five_db).
Proof.
  split; [reflexivity|]. split; [reflexivity|]. split; [reflexivity|].
  exact (proj1
    (sentiment_data_truncates_after_retrieval
       (Samples.connected Samples.five_db) Samples.five_db "2" 2
       eq_refl eq_refl eq_refl)).
Defined.

(** ** The broadcast *)

Section Socket.

Lemma same_socket_refl w : same_socket w w.
Proof. now split. Qed.

Lemma same_socket_trans w1 w2 w3 :
  same_socket w1 w2 -> same_socket w2 w3 -> same_socket w1 w3.
Proof. unfold same_socket. intros [] []. split; congruence. Qed.

Lemma keeps_ret {A : Type} (a : A) : keeps_socket (ret a).
Proof. intros w r w' [= _ <-]. apply same_socket_refl. Qed.

Lemma keeps_throw {A : Type} (e : string) : keeps_socket (@throw A e).
Proof. intros w r w' [= _ <-]. apply same_socket_refl. Qed.

Lemma keeps_bind {A B : Type} (m : M A) (k : A -> M B) :
  keeps_socket m -> (forall a, keeps_socket (k a)) -> keeps_socket (bind m k).
Proof.
  intros Hm Hk w r w'. unfold bind.
  destruct (m w) as [[a|e] w1] eqn:E; intros R.
  - eapply same_socket_trans; [eapply Hm, E | eapply Hk, R].
  - injection R as _ <-. eapply Hm, E.
Qed.

Lemma keeps_try_catch {A : Type} (m : M A) (h : string -> M A) :
  keeps_socket m -> (forall e, keeps_socket (h e)) ->
  keeps_socket (try_catch m h).
Proof.
  intros Hm Hh w r w'. unfold try_catch.
  destruct (m w) as [[a|e] w1] eqn:E; intros R.
  - injection R as _ <-. eapply Hm, E.
  - eapply same_socket_trans; [eapply Hm, E | eapply Hh, R].
Qed.

Lemma keeps_promise_all {A B : Type} (m1 : M A) (m2 : M B) :
  keeps_socket m1 -> keeps_socket m2 -> keeps_socket (promise_all m1 m2).
Proof.
  intros H1 H2 w r w'. unfold promise_all.
  destruct (m1 w) as [r1 w1] eqn:E1. destruct (m2 w1) as [r2 w2] eqn:E2.
  intros R.
  assert (w' = w2) as -> by (destruct r1, r2; now injection R).
  eapply same_socket_trans; [eapply H1, E1 | eapply H2, E2].
Qed.

Lemma keeps_console_log label : keeps_socket (console_log label).
Proof. intros w r w' [= _ <-]. now split. Qed.

Lemma keeps_has_pool : keeps_socket has_pool.
Proof. intros w r w' [= _ <-]. now split. Qed.

Lemma keeps_pool_query {A : Type} (stmt : Db -> Exc A * Db) :
  keeps_socket (pool_query stmt).
Proof.
  intros w r w'. unfold pool_query.
  destruct (pool w) as [db|].
  - destruct (Pg.run stmt db). intros [= _ <-]. now split.
  - intros [= _ <-]. now split.
Qed.

Lemma keeps_if {A : Type} (b : bool) (m1 m2 : M A) :
  keeps_socket m1 -> keeps_socket m2 -> keeps_socket (if b then m1 else m2).
Proof. now destruct b. Qed.

End Socket.

Ltac keeps :=
  repeat first
    [ apply keeps_ret | apply keeps_throw | apply keeps_console_log
    | apply keeps_has_pool | apply keeps_pool_query
    | apply keeps_bind; [|intros]
    | apply keeps_try_catch; [|intros]
    | apply keeps_promise_all
    | apply keeps_if ].

Lemma getSentimentStats_keeps_socket : keeps_socket getSentimentStats.
Proof. unfold getSentimentStats. keeps. Qed.

Lemma getChartData_keeps_socket : keeps_socket getChartData.
Proof.
  unfold getChartData. keeps; try apply getSentimentStats_keeps_socket.
  destruct (chart_entries _); keeps.
Qed.

Lemma getRecentEntries_keeps_socket limit : keeps_socket (getRecentEntries limit).
Proof. unfold getRecentEntries. keeps. Qed.

Lemma getDatabaseStats_keeps_socket : keeps_socket getDatabaseStats.
Proof. unfold getDatabaseStats. keeps. Qed.

Lemma getDatabaseInfo_keeps_socket : keeps_socket getDatabaseInfo.
Proof.
  unfold getDatabaseInfo. keeps; apply getDatabaseStats_keeps_socket.
Qed.

Lemma clearAllData_keeps_socket : keeps_socket clearAllData.
Proof. unfold clearAllData. keeps. Qed.

Lemma broadcast_payload_returns :
  returns (promise_all getSentimentStats
             (promise_all getChartData
                (promise_all (getRecentEntries (Some 5)) getDatabaseInfo))).
Proof.
  repeat apply returns_promise_all;
    auto using getSentimentStats_returns, getChartData_returns,
      getRecentEntries_returns, getDatabaseInfo_returns.
Qed.

Lemma broadcast_payload_keeps_socket :
  keeps_socket (promise_all getSentimentStats
                  (promise_all getChartData
                     (promise_all (getRecentEntries (Some 5)) getDatabaseInfo))).
Proof.
  repeat apply keeps_promise_all;
    auto using getSentimentStats_keeps_socket, getChartData_keeps_socket,
      getRecentEntries_keeps_socket, getDatabaseInfo_keeps_socket.
Qed.

Lemma broadcastDataUpdate_returns : returns Server.broadcastDataUpdate.
Proof.
  unfold Server.broadcastDataUpdate. apply returns_try_catch.
  intros. apply returns_console_log.
Qed.

(** When the socket layer throws, nothing is emitted and the last line
    on the console is the broadcast's own error line. *)
Lemma broadcast_swallows_emit_failure w msg :
  io_error w = Some msg ->
  exists w',
    Server.broadcastDataUpdate w = (Ret tt, w') /\
    emitted w' = emitted w /\
    exists lines, console w' = (lines ++ ["Error broadcasting update:"])%list.
Proof.
  intros Hio. unfold Server.broadcastDataUpdate, try_catch, bind.
  destruct (broadcast_payload_returns w) as (r & w1 & E). rewrite E.
  destruct (broadcast_payload_keeps_socket _ _ _ E) as [He Hi].
  destruct r as (stats & chartData & recentEntries & dbInfo).
  unfold io_emit. rewrite Hi, Hio. unfold console_log.
  eexists. split; [reflexivity|]. simpl. split; [exact He|]. eauto.
Qed.

(** C9: the broadcast routine never throws, whatever fails while it
    computes or publishes the payload; when publishing throws, nothing
    is emitted and the failure is logged; and the answer of a mutating
    request is fixed by the mutation alone: the clear-data handler
    answers from what delete-all resolved to, and the answer of the
    save-sentiment handler is the same in every world. *)
Theorem broadcast_failures_are_swallowed :
  returns Server.broadcastDataUpdate /\
  (forall w msg,
     io_error w = Some msg ->
     exists w',
       Server.broadcastDataUpdate w = (Ret tt, w') /\
       emitted w' = emitted w /\
       exists lines, console w' = (lines ++ ["Error broadcasting update:"])%list) /\
  (forall w,
     exists result w1 w2,
       clearAllData w = (Ret result, w1) /\
       Server.clear_data w = (Ret (clear_response result), w2)) /\
  (forall table_coerce req_body w w',
     fst (Server.post_save_sentiment table_coerce req_body w) =
     fst (Server.post_save_sentiment table_coerce req_body w')).
Proof.
  split; [apply broadcastDataUpdate_returns|].
  split; [apply broadcast_swallows_emit_failure|].
  split.
  - intros w. destruct (clearAllData_returns w) as (result & w1 & E).
    exists result, w1.
    unfold Server.clear_data, try_catch, bind. rewrite E.
    destruct result as [m|e].
    + destruct (broadcastDataUpdate_returns w1) as ([] & w2 & E2).
      rewrite E2. exists w2. split; reflexivity.
    + exists w1. split; reflexivity.
  - intros table_coerce req_body w w'. unfold Server.post_save_sentiment.
    destruct req_body as [| |b|q|s|items|props]; try reflexivity.
    rewrite !save_sentiment_object.
    destruct (_ || _); reflexivity.
Qed.

Lemma broadcast_failures_are_swallowed_witness :
  io_error Samples.flaky = Some "socket closed" /\
  exists w',
    Server.broadcastDataUpdate Samples.flaky = (Ret tt, w') /\
    emitted w' = emitted Samples.flaky /\
    exists lines, console w' = (lines ++ ["Error broadcasting update:"])%list.
Proof.
  split; [reflexivity|].
  exact (proj1 (proj2 broadcast_failures_are_swallowed)
           Samples.flaky "socket closed" eq_refl).
Defined.

(** ** Statistics *)

Section Rounding.
Local Open Scope Q_scope.

Lemma round_half_away_near (x : Q) :
  Qabs (inject_Z (round_half_away x) - x) <= 1 # 2.
Proof.
  apply Qabs_Qle_condition. unfold round_half_away.
  destruct (Qle_bool 0 x) eqn:E.
  - pose proof (Qfloor_le (x + (1 # 2))) as H1.
    pose proof (Qlt_floor (x + (1 # 2))) as H2.
    rewrite inject_Z_plus in H2. change (inject_Z 1) with 1 in H2. split; lra.
  - pose proof (Qfloor_le (- x + (1 # 2))) as H1.
    pose proof (Qlt_floor (- x + (1 # 2))) as H2.
    rewrite inject_Z_plus in H2. change (inject_Z 1) with 1 in H2.
    rewrite inject_Z_opp. split; lra.
Qed.

Lemma round_half_away_comp (x y : Q) : x == y -> round_half_away x = round_half_away y.
Proof.
  intros H. unfold round_half_away.
  assert (E1 : Qle_bool 0 x = Qle_bool 0 y) by (now rewrite H).
  assert (E2 : Qfloor (x + (1 # 2)) = Qfloor (y + (1 # 2))) by (now rewrite H).
  assert (E3 : Qfloor (- x + (1 # 2)) = Qfloor (- y + (1 # 2))) by (now rewrite H).
  now rewrite E1, E2, E3.
Qed.

Lemma round_to_near (scale : BinNums.positive) (x : Q) :
  Qabs (round_to scale x - x) <= 1 # (2 * scale).
Proof.
  pose proof (round_half_away_near (x * inject_Z (Zpos scale))) as H.
  apply Qabs_Qle_condition in H. apply Qabs_Qle_condition.
  unfold round_to.
  set (k := round_half_away (x * inject_Z (Z.pos scale))) in *.
  assert (S : 0 < inject_Z (Zpos scale)) by (unfold Qlt; simpl; lia).
  assert (E : (1 # (2 * scale)) == (1#2) * / inject_Z (Zpos scale)).
  { rewrite (Qmake_Qdiv 1 (2*scale)). rewrite Pos2Z.inj_mul, inject_Z_mult. field. lra. }
  assert (F : (k # scale) - x == (inject_Z k - x * inject_Z (Zpos scale)) * / inject_Z (Zpos scale)).
  { rewrite (Qmake_Qdiv k scale). field. lra. }
  rewrite E, F.
  assert (P : 0 <= / inject_Z (Zpos scale)) by (apply Qlt_le_weak, Qinv_lt_0_compat, S).
  destruct H as [H1 H2]. split.
  - setoid_replace (- ((1 # 2) * / inject_Z (Z.pos scale))) with ((- (1 # 2)) * / inject_Z (Z.pos scale)) by ring.
    now apply Qmult_le_compat_r.
  - now apply Qmult_le_compat_r.
Qed.

End Rounding.

Section GroupBy.
Local Open Scope list_scope.

Lemma class_eqb_eq a b : class_eqb a b = true <-> a = b.
Proof.
  destruct a as [x|], b as [y|]; simpl; split; try congruence; try reflexivity.
  - intros H. apply String.eqb_eq in H. now subst.
  - intros [= ->]. apply String.eqb_refl.
Qed.

Lemma class_eqb_neq a b : class_eqb a b = false <-> a <> b.
Proof.
  rewrite <- class_eqb_eq. destruct (class_eqb a b); split; congruence.
Qed.

Lemma Qsum_app l1 l2 : (Qsum (l1 ++ l2) == Qsum l1 + Qsum l2)%Q.
Proof.
  induction l1 as [|x l1 IH]; simpl.
  - ring.
  - rewrite IH. ring.
Qed.

Lemma in_class_snoc c rows r :
  in_class c (rows ++ [r]) =
  in_class c rows ++ (if class_eqb (Pg.predicted_class r) c then [r] else []).
Proof. unfold in_class. now rewrite filter_app. Qed.

Lemma recorded_snoc rows r :
  recorded_confidences (rows ++ [r]) =
  recorded_confidences rows
  ++ match confidence r with Some q => [q] | None => [] end.
Proof.
  unfold recorded_confidences. rewrite flat_map_app. simpl.
  now rewrite app_nil_r.
Qed.

Lemma summarises_other rows r g :
  Pg.predicted_class r <> g_class g ->
  summarises rows g -> summarises (rows ++ [r]) g.
Proof.
  intros Hne H. unfold summarises. rewrite in_class_snoc.
  apply class_eqb_neq in Hne. rewrite Hne, app_nil_r. exact H.
Qed.

Lemma summarises_accumulate rows r g :
  g_class g = Pg.predicted_class r ->
  summarises rows g -> summarises (rows ++ [r]) (accumulate g r).
Proof.
  intros Hc (H1 & H2 & H3). unfold summarises.
  assert (Ec : g_class (accumulate g r) = g_class g)
    by (unfold accumulate; now destruct (confidence r)).
  rewrite Ec, in_class_snoc.
  assert (E : class_eqb (Pg.predicted_class r) (g_class g) = true)
    by (now apply class_eqb_eq).
  rewrite E, recorded_snoc, !length_app.
  unfold accumulate. destruct (confidence r) as [q|]; simpl.
  - rewrite Qsum_app. simpl. rewrite H1, H3. repeat split; try lia.
    rewrite H2. ring.
  - rewrite app_nil_r. rewrite H1, H3. repeat split; try lia.
    exact H2.
Qed.

Lemma summarises_new rows r :
  (forall r', In r' rows -> Pg.predicted_class r' <> Pg.predicted_class r) ->
  summarises (rows ++ [r]) (new_group r).
Proof.
  intros Hno. unfold summarises.
  assert (Ec : g_class (new_group r) = Pg.predicted_class r)
    by (unfold new_group; now destruct (confidence r)).
  rewrite Ec, in_class_snoc.
  assert (E : class_eqb (Pg.predicted_class r) (Pg.predicted_class r) = true)
    by (now apply class_eqb_eq).
  assert (N : in_class (Pg.predicted_class r) rows = []).
  { unfold in_class. induction rows as [|x rows IH]; simpl; [reflexivity|].
    destruct (class_eqb (Pg.predicted_class x) (Pg.predicted_class r)) eqn:Ex.
    - apply class_eqb_eq in Ex. exfalso. apply (Hno x); simpl; auto.
    - apply IH. intros r' Hr'. apply Hno. now right. }
  rewrite E, N. unfold recorded_confidences, new_group. simpl. destruct (confidence r) as [q|]; simpl.
  - repeat split; try reflexivity. ring.
  - repeat split; reflexivity.
Qed.

Lemma add_row_classes r gs c :
  In c (map g_class (add_row r gs)) <->
  In c (map g_class gs) \/ c = Pg.predicted_class r.
Proof.
  induction gs as [|g gs IH]; simpl.
  - unfold new_group. destruct (confidence r); simpl; intuition congruence.
  - destruct (class_eqb (g_class g) (Pg.predicted_class r)) eqn:E; simpl.
    + apply class_eqb_eq in E.
      assert (Ec : g_class (accumulate g r) = g_class g)
        by (unfold accumulate; now destruct (confidence r)).
      rewrite Ec. intuition congruence.
    + rewrite IH. intuition.
Qed.

Lemma add_row_nodup r gs :
  NoDup (map g_class gs) -> NoDup (map g_class (add_row r gs)).
Proof.
  induction gs as [|g gs IH]; simpl; intros H.
  - repeat constructor. simpl. tauto.
  - inversion H as [|? ? Hn Hd]; subst.
    destruct (class_eqb (g_class g) (Pg.predicted_class r)) eqn:E; simpl.
    + assert (Ec : g_class (accumulate g r) = g_class g)
        by (unfold accumulate; now destruct (confidence r)).
      rewrite Ec. now constructor.
    + constructor; [|now apply IH].
      rewrite add_row_classes. intros [Hin|Heq]; [now apply Hn|].
      apply class_eqb_neq in E. congruence.
Qed.

Lemma add_row_summarises rows r gs :
  NoDup (map g_class gs) ->
  Forall (summarises rows) gs ->
  (In (Pg.predicted_class r) (map g_class gs)
   \/ forall r', In r' rows -> Pg.predicted_class r' <> Pg.predicted_class r) ->
  Forall (summarises (rows ++ [r])) (add_row r gs).
Proof.
  induction gs as [|g gs IH]; simpl; intros Hd Hs Hc.
  - constructor; [|constructor]. apply summarises_new.
    destruct Hc as [[]|Hc]. exact Hc.
  - inversion Hd as [|? ? Hn Hd']; subst.
    inversion Hs as [|? ? Hg Hs']; subst.
    destruct (class_eqb (g_class g) (Pg.predicted_class r)) eqn:E.
    + apply class_eqb_eq in E. constructor.
      * now apply summarises_accumulate.
      * rewrite Forall_forall in *. intros g' Hg'.
        apply summarises_other; [|now apply Hs'].
        intros Heq. apply Hn. rewrite E, Heq. now apply in_map.
    + apply class_eqb_neq in E. constructor.
      * apply summarises_other; [congruence | exact Hg].
      * apply IH; [exact Hd' | exact Hs' |].
        destruct Hc as [[Hc|Hc]|Hc]; [congruence | now left | now right].
Qed.

Lemma add_row_groups rows r gs :
  groups_of rows gs -> groups_of (rows ++ [r]) (add_row r gs).
Proof.
  intros (Hd & Hc & Hs). split; [|split].
  - now apply add_row_nodup.
  - intros c. rewrite add_row_classes, Hc. split.
    + intros [(r' & Hr' & E)| ->].
      * exists r'. split; [apply in_or_app; now left | exact E].
      * exists r. split; [apply in_or_app; right; now left | reflexivity].
    + intros (r' & Hr' & E). apply in_app_or in Hr'.
      destruct Hr' as [Hr'|[<-|[]]]; [left; eauto | now right].
  - apply add_row_summarises; auto.
    assert (Dec : forall x y : option string, {x = y} + {x <> y})
      by (decide equality; apply string_dec).
    destruct (in_dec Dec (Pg.predicted_class r) (map g_class gs)) as [Hin|Hnin];
      [now left | right].
    intros r' Hr' E. apply Hnin, Hc. eauto.
Qed.

Lemma fold_add_row_groups rows :
  forall pre gs,
    groups_of pre gs ->
    groups_of (pre ++ rows) (fold_left (fun gs r => add_row r gs) rows gs).
Proof.
  induction rows as [|r rows IH]; simpl; intros pre gs H.
  - now rewrite app_nil_r.
  - replace (pre ++ r :: rows) with ((pre ++ [r]) ++ rows)
      by (now rewrite <- app_assoc).
    apply IH. now apply add_row_groups.
Qed.

Lemma group_by_class_groups rows : groups_of rows (group_by_class rows).
Proof.
  apply (fold_add_row_groups rows [] []).
  split; [constructor|split; [|constructor]].
  intros c. simpl. split; [tauto | intros (r & [] & _)].
Qed.

End GroupBy.

Lemma sorted_map_stat (l : list StatsRow) :
  StronglySorted (desc sr_count) l ->
  StronglySorted (desc count) (map stat_of_row l).
Proof.
  induction 1 as [|x l Hs IH Hx]; simpl; constructor; [exact IH|].
  rewrite Forall_map. exact Hx.
Qed.

Lemma rounded_to_round_to (scale : BinNums.positive) (x y : Q) :
  (x == y)%Q -> rounded_to scale y (round_to scale x).
Proof.
  intros E. split.
  - unfold round_to. eauto.
  - rewrite <- E. apply round_to_near.
Qed.

Lemma in_class_member (c : option string) (rows : list Row) (r : Row) :
  In r rows -> Pg.predicted_class r = c -> In r (in_class c rows).
Proof.
  intros Hr Hc. unfold in_class. apply filter_In. split; [exact Hr|].
  now apply class_eqb_eq.
Qed.

(** What the statistics query computes for one group. *)
Lemma stat_of_group (rows : list Row) (g : Group) :
  summarises rows g ->
  (exists r, In r rows /\ Pg.predicted_class r = g_class g) ->
  let s := stat_of_row (stats_row (Z.of_nat (List.length rows)) g) in
  count s = Z.of_nat (List.length (in_class (predicted_class s) rows)) /\
  0 < count s /\
  match mean (recorded_confidences (in_class (predicted_class s) rows)) with
  | Some m => exists a, avg_confidence s = Some a /\ rounded_to 10000 m a
  | None => avg_confidence s = None
  end /\
  rounded_to 100
    (inject_Z (count s) * 100 / inject_Z (Z.of_nat (List.length rows)))%Q
    (percentage s).
Proof.
  intros (H1 & H2 & H3) (r & Hr & Hc). simpl.
  split; [exact H1|]. split.
  - rewrite H1. pose proof (in_class_member _ _ _ Hr Hc) as Hin.
    destruct (in_class (g_class g) rows); [contradiction|simpl; lia].
  - split.
    + destruct (recorded_confidences (in_class (g_class g) rows))
        as [|q l] eqn:El; simpl.
      * simpl in H3. rewrite H3. reflexivity.
      * assert (N : (g_nonnull g =? 0) = false)
          by (apply Z.eqb_neq; rewrite H3; simpl; lia).
        rewrite N. simpl. eexists. split; [reflexivity|].
        apply rounded_to_round_to. rewrite H2, H3. reflexivity.
    + apply rounded_to_round_to. reflexivity.
Qed.

(** C5: ComputeStats returns the empty list when the pool is not
    configured or the table is empty; on a configured pool with a
    working connection it returns exactly one entry per class present
    in the table, in descending order of count, and each entry carries
    the number of rows of its class, the mean of their recorded
    confidences rounded to 4 decimal places, and the share of the class
    in the total, in percent, rounded to 2 decimal places. *)
Theorem stats_group_by_predicted_class :
  forall w : World,
    (pool w = None -> getSentimentStats w = (Ret [], w)) /\
    (forall db,
       pool w = Some db -> faults db = [] ->
       exists stats,
         getSentimentStats w = (Ret stats, w) /\
         (table db = [] -> stats = []) /\
         NoDup (map predicted_class stats) /\
         (forall c, In c (map predicted_class stats) <->
                    exists r, In r (table db) /\ Pg.predicted_class r = c) /\
         StronglySorted (desc count) stats /\
         (forall s, In s stats ->
            count s
            = Z.of_nat (List.length (in_class (predicted_class s) (table db))) /\
            0 < count s /\
            match mean (recorded_confidences
                          (in_class (predicted_class s) (table db))) with
            | Some m =>
                exists a, avg_confidence s = Some a /\ rounded_to 10000 m a
            | None => avg_confidence s = None
            end /\
            rounded_to 100
              (inject_Z (count s) * 100
               / inject_Z (Z.of_nat (List.length (table db))))%Q
              (percentage s))).
Proof.
  intros w. split.
  { intros Hp. unfold getSentimentStats, try_catch, bind, has_pool.
    now rewrite Hp. }
  intros db Hp Hf.
  destruct w as [p e i c]. destruct db as [t nid nw fs].
  simpl in Hp, Hf. subst p fs. simpl.
  destruct (group_by_class_groups t) as (Hd & Hc & Hs).
  set (total := Z.of_nat (List.length t)).
  set (rows := map (stats_row total) (group_by_class t)).
  pose proof (order_by_desc_perm sr_count rows) as Hperm.
  assert (Hclasses :
    Permutation (map predicted_class (map stat_of_row (order_by_desc sr_count rows)))
                (map g_class (group_by_class t))).
  { rewrite map_map.
    eapply perm_trans; [apply Permutation_map, Hperm|].
    unfold rows. rewrite map_map. simpl. apply Permutation_refl. }
  exists (map stat_of_row (order_by_desc sr_count rows)).
  split; [reflexivity|]. split; [|split; [|split; [|split]]].
  - intros ->. reflexivity.
  - eapply Permutation_NoDup; [apply Permutation_sym, Hclasses | exact Hd].
  - intros cl. rewrite <- Hc. split; intros H.
    + eapply Permutation_in; [exact Hclasses | exact H].
    + eapply Permutation_in; [apply Permutation_sym, Hclasses | exact H].
  - apply sorted_map_stat, order_by_desc_sorted.
  - intros s Hin. apply in_map_iff in Hin. destruct Hin as (sr & <- & Hsr).
    apply (Permutation_in _ Hperm) in Hsr. unfold rows in Hsr.
    apply in_map_iff in Hsr. destruct Hsr as (g & <- & Hg).
    apply (stat_of_group t g).
    + rewrite Forall_forall in Hs. now apply Hs.
    + apply Hc. now apply in_map.
Qed.

Lemma stats_group_by_predicted_class_witness :
  pool (Samples.connected Samples.five_db) = Some Samples.five_db /\
  faults Samples.five_db = [] /\
  exists stats,
    getSentimentStats (Samples.connected Samples.five_db)
    = (Ret stats, Samples.connected Samples.five_db) /\
    StronglySorted (desc count) stats.
Proof.
  split; [reflexivity|]. split; [reflexivity|].
  destruct (proj2 (stats_group_by_predicted_class
                     (Samples.connected Samples.five_db))
              Samples.five_db eq_refl eq_refl)
    as (stats & E & _ & _ & _ & S & _).
  exists stats. split; [exact E | exact S].
Defined.

(** The statistics of the five sample records. *)
Example stats_of_five_rows :
  fst (getSentimentStats (Samples.connected Samples.five_db)) =
  Ret [mkStat (Some "positive") 3 (Some (8056 # 10000)) (6000 # 100);
       mkStat (Some "negative") 1 (Some (8000 # 10000)) (2000 # 100);
       mkStat (Some "neutral") 1 (Some (3333 # 10000)) (2000 # 100)].
Proof. reflexivity. Qed.

(** * Further properties of the adapter and of the routes *)

(** ** Reading never writes *)

Section Store.

Lemma same_store_refl w : same_store w w.
Proof. unfold same_store. destruct (pool w); auto. Qed.

Lemma same_store_trans w1 w2 w3 :
  same_store w1 w2 -> same_store w2 w3 -> same_store w1 w3.
Proof.
  unfold same_store.
  destruct (pool w1), (pool w2), (pool w3); try tauto.
  intros (A1 & A2 & A3) (B1 & B2 & B3). repeat split; congruence.
Qed.

Lemma store_ret {A : Type} (a : A) : keeps_store (ret a).
Proof. intros w r w' [= _ <-]. apply same_store_refl. Qed.

Lemma store_throw {A : Type} (e : string) : keeps_store (@throw A e).
Proof. intros w r w' [= _ <-]. apply same_store_refl. Qed.

Lemma store_bind {A B : Type} (m : M A) (k : A -> M B) :
  keeps_store m -> (forall a, keeps_store (k a)) -> keeps_store (bind m k).
Proof.
  intros Hm Hk w r w'. unfold bind.
  destruct (m w) as [[a|e] w1] eqn:E; intros R.
  - eapply same_store_trans; [eapply Hm, E | eapply Hk, R].
  - injection R as _ <-. eapply Hm, E.
Qed.

Lemma store_try_catch {A : Type} (m : M A) (h : string -> M A) :
  keeps_store m -> (forall e, keeps_store (h e)) ->
  keeps_store (try_catch m h).
Proof.
  intros Hm Hh w r w'. unfold try_catch.
  destruct (m w) as [[a|e] w1] eqn:E; intros R.
  - injection R as _ <-. eapply Hm, E.
  - eapply same_store_trans; [eapply Hm, E | eapply Hh, R].
Qed.

Lemma store_promise_all {A B : Type} (m1 : M A) (m2 : M B) :
  keeps_store m1 -> keeps_store m2 -> keeps_store (promise_all m1 m2).
Proof.
  intros H1 H2 w r w'. unfold promise_all.
  destruct (m1 w) as [r1 w1] eqn:E1. destruct (m2 w1) as [r2 w2] eqn:E2.
  intros R.
  assert (w' = w2) as -> by (destruct r1, r2; now injection R).
  eapply same_store_trans; [eapply H1, E1 | eapply H2, E2].
Qed.

Lemma store_console_log label : keeps_store (console_log label).
Proof.
  intros w r w' [= _ <-]. unfold same_store. simpl. destruct (pool w); auto.
Qed.

Lemma store_has_pool : keeps_store has_pool.
Proof. intros w r w' [= _ <-]. apply same_store_refl. Qed.

Lemma store_io_emit payload : keeps_store (io_emit payload).
Proof.
  intros w r w'. unfold io_emit. destruct (io_error w).
  - intros [= _ <-]. apply same_store_refl.
  - intros [= _ <-]. unfold same_store. simpl. destruct (pool w); auto.
Qed.

(** A statement that only reads gives the database back as it got it. *)
Lemma store_pool_query {A : Type} (stmt : Db -> Exc A * Db) :
  (forall db, snd (stmt db) = db) -> keeps_store (pool_query stmt).
Proof.
  intros Hro w r w'. unfold pool_query, same_store.
  destruct (pool w) as [db|] eqn:Ep.
  - unfold Pg.run. destruct (faults db) as [|[msg|] rest].
    + pose proof (Hro db) as H. destruct (stmt db) as [r0 db0]. simpl in H.
      subst db0. intros [= _ <-]. simpl. auto.
    + intros [= _ <-]. simpl. auto.
    + pose proof (Hro (with_faults db rest)) as H.
      destruct (stmt (with_faults db rest)) as [r0 db0]. simpl in H.
      subst db0. intros [= _ <-]. simpl. auto.
  - intros [= _ <-]. now rewrite Ep.
Qed.

Lemma store_if {A : Type} (b : bool) (m1 m2 : M A) :
  keeps_store m1 -> keeps_store m2 -> keeps_store (if b then m1 else m2).
Proof. now destruct b. Qed.

End Store.

Ltac stores :=
  repeat first
    [ apply store_ret | apply store_throw | apply store_console_log
    | apply store_has_pool | apply store_io_emit
    | apply store_pool_query; intros; reflexivity
    | apply store_bind; [|intros]
    | apply store_try_catch; [|intros]
    | apply store_promise_all
    | apply store_if ].

Lemma getAllSentimentData_keeps_store : keeps_store getAllSentimentData.
Proof. unfold getAllSentimentData. stores. Qed.

Lemma getSentimentStats_keeps_store : keeps_store getSentimentStats.
Proof. unfold getSentimentStats. stores. Qed.

Lemma getChartData_keeps_store : keeps_store getChartData.
Proof.
  unfold getChartData. stores; try apply getSentimentStats_keeps_store.
  destruct (chart_entries _); stores.
Qed.

Lemma getRecentEntries_keeps_store limit : keeps_store (getRecentEntries limit).
Proof.
  unfold getRecentEntries. stores.
  apply store_pool_query. intros db. unfold sql_select_recent.
  now destruct (_ <? 0).
Qed.

Lemma getDatabaseStats_keeps_store : keeps_store getDatabaseStats.
Proof. unfold getDatabaseStats. stores. Qed.

Lemma getDatabaseInfo_keeps_store : keeps_store getDatabaseInfo.
Proof. unfold getDatabaseInfo. stores; apply getDatabaseStats_keeps_store. Qed.

Lemma broadcast_payload_keeps_store :
  keeps_store (promise_all getSentimentStats
                 (promise_all getChartData
                    (promise_all (getRecentEntries (Some 5)) getDatabaseInfo))).
Proof.
  repeat apply store_promise_all;
    auto using getSentimentStats_keeps_store, getChartData_keeps_store,
      getRecentEntries_keeps_store, getDatabaseInfo_keeps_store.
Qed.

Lemma broadcastDataUpdate_keeps_store : keeps_store Server.broadcastDataUpdate.
Proof.
  unfold Server.broadcastDataUpdate.
  apply store_try_catch; [|intros; apply store_console_log].
  apply store_bind; [apply broadcast_payload_keeps_store|].
  intros (stats & chartData & recentEntries & dbInfo). stores.
Qed.

(** X8: the list, recent, statistics, chart and count operations, the
    broadcast and the four GET routes never change the stored rows, the
    id sequence or the clock, in any world and whatever fails on the
    way. *)
Theorem reading_never_writes :
  forall (limit : option Z) (query_limit : option string) (timestamp : string),
    keeps_store getAllSentimentData /\
    keeps_store (getRecentEntries limit) /\
    keeps_store getSentimentStats /\
    keeps_store getChartData /\
    keeps_store getDatabaseStats /\
    keeps_store getDatabaseInfo /\
    keeps_store Server.broadcastDataUpdate /\
    keeps_store (Server.sentiment_data query_limit) /\
    keeps_store Routes.sentiment_stats /\
    keeps_store Routes.chart_data_route /\
    keeps_store (Routes.health timestamp).
Proof.
  intros limit query_limit timestamp.
  repeat split.
  - apply getAllSentimentData_keeps_store.
  - apply getRecentEntries_keeps_store.
  - apply getSentimentStats_keeps_store.
  - apply getChartData_keeps_store.
  - apply getDatabaseStats_keeps_store.
  - apply getDatabaseInfo_keeps_store.
  - apply broadcastDataUpdate_keeps_store.
  - unfold Server.sentiment_data, json.
    apply store_try_catch; [|intros; stores].
    apply store_bind; [apply getAllSentimentData_keeps_store|].
    intros; apply store_ret.
  - unfold Routes.sentiment_stats.
    apply store_try_catch; [|intros; stores].
    apply store_bind; [apply broadcast_payload_keeps_store|].
    intros (stats & chartData & recentEntries & dbInfo). apply store_ret.
  - unfold Routes.chart_data_route.
    apply store_try_catch; [|intros; stores].
    apply store_bind; [apply getChartData_keeps_store|].
    intros; apply store_ret.
  - unfold Routes.health.
    apply store_try_catch; [|intros; stores].
    apply store_bind; [apply getDatabaseInfo_keeps_store|].
    intros; apply store_ret.
Qed.

Lemma reading_never_writes_witness :
  same_store Samples.flaky (snd (Routes.sentiment_stats Samples.flaky)).
Proof.
  exact (proj1 (proj2 (proj2 (proj2 (proj2 (proj2 (proj2 (proj2 (proj2
           (reading_never_writes None None "")))))))))
         Samples.flaky _ _ (surjective_pairing _)).
Defined.

(** ** Insert writes one row or nothing *)

Lemma run_insert_outcome table_coerce values db r db' :
  Pg.run (sql_insert table_coerce values) db = (r, db') ->
  match r with
  | Ret rows =>
      exists c,
        rows = [stored_row db c] /\
        table db' = (table db ++ [stored_row db c])%list /\
        next_id db' = next_id db + 1 /\ now db' = now db
  | Throw _ =>
      table db' = table db /\ next_id db' = next_id db /\ now db' = now db
  end.
Proof.
  unfold Pg.run, sql_insert.
  destruct (faults db) as [|[m|] fs].
  - destruct (table_coerce values) as [c|m']; intros [= <- <-]; simpl;
      try (exists c); repeat split; reflexivity.
  - intros [= <- <-]. simpl. auto.
  - destruct (table_coerce values) as [c|m']; intros [= <- <-]; simpl;
      try (exists c); repeat split; reflexivity.
Qed.

(** X9: Insert never throws; when it reports failure the stored rows
    are as they were, and when it reports success exactly one row has
    been appended: the returned record, whose id is the next value of
    the sequence and whose creation time is the time of the insert. *)
Theorem insert_writes_one_row_or_nothing :
  forall (table_coerce : list JsValue -> Exc Columns) (d : JsValue)
         (w w' : World) (r : Exc InsertResult),
    insertSentimentAnalysis table_coerce d w = (r, w') ->
    match r with
    | Throw _ => False
    | Ret (InsertFail _) => same_store w w'
    | Ret (InsertOk i e) =>
        exists db db',
          pool w = Some db /\ pool w' = Some db' /\
          table db' = (table db ++ [row e])%list /\
          i = next_id db /\ id (row e) = next_id db /\
          next_id db' = next_id db + 1 /\
          created_at (row e) = now db /\
          e = reshape (row e)
    end.
Proof.
  intros table_coerce d w w' r H.
  destruct (pool w) as [db|] eqn:Hp.
  - rewrite (insert_on_pool _ _ _ _ Hp) in H.
    destruct (fst (insert_values d w)) as [values|msg].
    + destruct (Pg.run _ db) as [r0 db0] eqn:Er.
      pose proof (run_insert_outcome _ _ _ _ _ Er) as Ho.
      destruct r0 as [rows|msg].
      * destruct Ho as (c & -> & Ht & Hn & Hw).
        injection H as <- <-.
        exists db, db0. simpl. repeat split; auto.
      * destruct Ho as (Ht & Hn & Hw). injection H as <- <-.
        unfold same_store. rewrite Hp. simpl. auto.
    + injection H as <- <-. unfold same_store. rewrite Hp. simpl.
      rewrite Hp. auto.
  - unfold insertSentimentAnalysis, try_catch, bind, has_pool in H.
    rewrite Hp in H. simpl in H. injection H as <- <-.
    apply same_store_refl.
Qed.

Lemma insert_writes_one_row_or_nothing_witness :
  same_store (Samples.connected Samples.empty_db)
    (logged "Error inserting data:" (Samples.connected Samples.empty_db)).
Proof.
  exact (insert_writes_one_row_or_nothing Tables.required_table
           Samples.no_text (Samples.connected Samples.empty_db) _ _ eq_refl).
Defined.

(** ** Insert, then list *)

Lemma getAllSentimentData_on_pool w db :
  pool w = Some db -> faults db = [] ->
  getAllSentimentData w
  = (Ret (map reshape (order_by_desc created_at (table db))), w).
Proof.
  intros Hp Hf. destruct w as [p e i c]. destruct db as [t nid nw fs].
  simpl in Hp, Hf. subst p fs. reflexivity.
Qed.

Lemma getDatabaseStats_on_pool w db :
  pool w = Some db -> faults db = [] ->
  getDatabaseStats w
  = (Ret (Z.of_nat (List.length (table db)),
          match table db with
          | [] => None
          | r :: rest =>
              Some (fold_right (fun x m => Z.max (created_at x) m)
                               (created_at r) rest)
          end), w).
Proof.
  intros Hp Hf. destruct w as [p e i c]. destruct db as [t nid nw fs].
  simpl in Hp, Hf. subst p fs. reflexivity.
Qed.

(** X10: a record Insert has reported as saved is in the list the next
    ListAll returns, which is one longer than the table was, and the
    count query counts it. *)
Theorem inserted_record_is_listed :
  forall (table_coerce : list JsValue -> Exc Columns) (d : JsValue)
         (w w' : World) (i : Z) (e : Entry) (db db' : Db),
    insertSentimentAnalysis table_coerce d w = (Ret (InsertOk i e), w') ->
    pool w = Some db -> pool w' = Some db' -> faults db' = [] ->
    exists entries last_updated,
      getAllSentimentData w' = (Ret entries, w') /\
      In e entries /\
      List.length entries = S (List.length (table db)) /\
      getDatabaseStats w'
      = (Ret (Z.of_nat (List.length (table db)) + 1, last_updated), w').
Proof.
  intros table_coerce d w w' i e db db' H Hp Hp' Hf.
  pose proof (insert_writes_one_row_or_nothing _ _ _ _ _ H) as Ho.
  simpl in Ho. destruct Ho as (db0 & db1 & E0 & E1 & Ht & _ & _ & _ & _ & Er).
  rewrite Hp in E0. injection E0 as <-.
  rewrite Hp' in E1. injection E1 as <-.
  exists (map reshape (order_by_desc created_at (table db'))).
  eexists.
  split; [now apply getAllSentimentData_on_pool|]. split; [|split].
  - rewrite Er. apply in_map.
    eapply Permutation_in; [apply Permutation_sym, order_by_desc_perm|].
    rewrite Ht. apply in_or_app. right. now left.
  - rewrite length_map, order_by_desc_length, Ht, length_app. simpl. lia.
  - rewrite (getDatabaseStats_on_pool _ _ Hp' Hf).
    replace (Z.of_nat (List.length (table db')))
      with (Z.of_nat (List.length (table db)) + 1)
      by (rewrite Ht, length_app; simpl; lia).
    reflexivity.
Qed.

Lemma inserted_record_is_listed_witness :
  In (reshape Samples.stored_great_product)
     (map reshape (order_by_desc created_at [Samples.stored_great_product])).
Proof.
  destruct (inserted_record_is_listed Tables.required_table
              (Server.analysis_data (JStr "great product") (JStr "positive")
                 (JNum (95 # 100)) Samples.triple)
              (Samples.connected Samples.empty_db)
              (Samples.connected (mkDb [Samples.stored_great_product] 2 1000 []))
              1 (reshape Samples.stored_great_product)
              Samples.empty_db (mkDb [Samples.stored_great_product] 2 1000 [])
              eq_refl eq_refl eq_refl eq_refl)
    as (entries & last_updated & E & Hin & _).
  injection E as <-. exact Hin.
Defined.

(** ** Recent entries *)



(** ** Database info *)

Section Newest.

Let latest (r : Row) (rest : list Row) : Z :=
  fold_right (fun x m => Z.max (created_at x) m) (created_at r) rest.

Lemma latest_bounds r rest :
  created_at r <= latest r rest /\
  Forall (fun x => created_at x <= latest r rest) rest.
Proof.
  unfold latest. induction rest as [|x rest [IH1 IH2]]; simpl.
  - split; [lia | constructor].
  - split; [lia|]. constructor; [lia|].
    eapply Forall_impl; [|exact IH2]. simpl. intros; lia.
Qed.

Lemma latest_attained r rest :
  exists x, In x (r :: rest) /\ created_at x = latest r rest.
Proof.
  unfold latest. induction rest as [|y rest (x & Hx & E)]; simpl.
  - exists r. auto.
  - destruct (Z.max_spec (created_at y)
                (fold_right (fun x m => Z.max (created_at x) m)
                            (created_at r) rest)) as [[_ ->]|[_ ->]].
    + exists x. split; [|exact E]. simpl in Hx. simpl. tauto.
    + exists y. simpl. auto.
Qed.

Lemma latest_is_first_listed (rows : list Row) :
  match rows with
  | [] => None
  | r :: rest => Some (latest r rest)
  end = newest (map reshape (order_by_desc created_at rows)).
Proof.
  pose proof (order_by_desc_perm created_at rows) as Hp.
  pose proof (order_by_desc_sorted created_at rows) as Hs.
  destruct rows as [|r rest].
  - reflexivity.
  - destruct (order_by_desc created_at (r :: rest)) as [|x sorted] eqn:E.
    + apply Permutation_nil in Hp. discriminate.
    + simpl. f_equal.
      destruct (latest_bounds r rest) as [B1 B2].
      destruct (latest_attained r rest) as (y & Hy & Ey).
      assert (Hx : In x (r :: rest))
        by (eapply Permutation_in; [exact Hp | now left]).
      assert (Up : created_at x <= latest r rest).
      { destruct Hx as [<-|Hx]; [exact B1|].
        rewrite Forall_forall in B2. now apply B2. }
      assert (Lo : created_at y <= created_at x).
      { apply (Permutation_in _ (Permutation_sym Hp)) in Hy.
        inversion Hs as [|? ? _ Hall]; subst.
        destruct Hy as [<-|Hy]; [lia|].
        rewrite Forall_forall in Hall. now apply Hall. }
      lia.
Qed.

End Newest.

(** X2: on a working connection the database info reports the number
    of records ListAll returns and, as [last_updated], the creation
    time of the first (newest) of them, or none when there is no
    record, with type 'PostgreSQL' and status 'connected'. *)
Theorem database_info_agrees_with_list_all :
  forall (w : World) (db : Db),
    pool w = Some db -> faults db = [] ->
    exists entries,
      getAllSentimentData w = (Ret entries, w) /\
      getDatabaseInfo w
      = (Ret (mkDatabaseInfo (Z.of_nat (List.length entries)) (newest entries)
                             "PostgreSQL" "connected"), w).
Proof.
  intros w db Hp Hf.
  exists (map reshape (order_by_desc created_at (table db))).
  split; [now apply getAllSentimentData_on_pool|].
  rewrite <- latest_is_first_listed, length_map, order_by_desc_length.
  unfold getDatabaseInfo, try_catch, bind, has_pool.
  rewrite Hp. cbn [negb]. cbv iota.
  rewrite (getDatabaseStats_on_pool _ _ Hp Hf). reflexivity.
Qed.

Lemma database_info_agrees_with_list_all_witness :
  exists entries,
    getAllSentimentData (Samples.connected Samples.five_db)
    = (Ret entries, Samples.connected Samples.five_db) /\
    getDatabaseInfo (Samples.connected Samples.five_db)
    = (Ret (mkDatabaseInfo (Z.of_nat (List.length entries)) (newest entries)
                           "PostgreSQL" "connected"),
       Samples.connected Samples.five_db).
Proof.
  exact (database_info_agrees_with_list_all
           (Samples.connected Samples.five_db) Samples.five_db
           eq_refl eq_refl).
Defined.

Lemma getDatabaseStats_failing w msg :
  next_fails w msg -> fst (getDatabaseStats w) = Ret (0, None).
Proof.
  intros (db & rest & Hp & Hf).
  destruct w as [p e i c]. destruct db as [t nid nw fs].
  simpl in Hp, Hf. subst p fs.
  unfold getDatabaseStats, try_catch, bind, has_pool, promise_all, pool_query,
    Pg.run. simpl.
  destruct rest as [|[m|] rest']; reflexivity.
Qed.

Lemma getDatabaseInfo_shape w :
  exists total last w',
    getDatabaseInfo w
    = (Ret (mkDatabaseInfo total last
              match pool w with Some _ => "PostgreSQL" | None => "PostgreSQL (Not Configured)" end
              match pool w with Some _ => "connected" | None => "disconnected" end), w') /\
    (pool w = None -> total = 0 /\ last = None /\ w' = w) /\
    (forall msg, next_fails w msg -> total = 0 /\ last = None).
Proof.
  unfold getDatabaseInfo, try_catch, bind, has_pool.
  destruct (pool w) as [db|] eqn:Hp; simpl.
  - destruct (getDatabaseStats_returns w) as ((total & last) & w' & E).
    rewrite E. exists total, last, w'. split; [reflexivity|].
    split; [discriminate|].
    intros msg Hn. pose proof (getDatabaseStats_failing w msg Hn) as F.
    rewrite E in F. simpl in F. injection F as -> ->. auto.
  - exists 0, None, w. split; [reflexivity|]. split; [auto|].
    intros msg (db & rest & Hp' & _). congruence.
Qed.

(** X3: the database info never throws and never reports the status
    'error': the status is 'disconnected' when no pool is configured and
    'connected' otherwise, also when the count statement fails, in
    which case the info shows zero entries and no date. *)
Theorem database_info_never_reports_error :
  forall w : World,
    exists info w',
      getDatabaseInfo w = (Ret info, w') /\
      connection_status info
      = match pool w with Some _ => "connected" | None => "disconnected" end /\
      database_type info
      = match pool w with Some _ => "PostgreSQL" | None => "PostgreSQL (Not Configured)" end /\
      (forall msg, next_fails w msg ->
         total_entries info = 0 /\ last_updated info = None).
Proof.
  intros w. destruct (getDatabaseInfo_shape w) as (total & last & w' & E & _ & F).
  eexists; exists w'. split; [exact E|]. simpl. auto.
Qed.

Lemma database_info_never_reports_error_witness :
  next_fails Cases.timing_out "timeout" /\
  fst (getDatabaseInfo Cases.timing_out)
  = Ret (mkDatabaseInfo 0 None "PostgreSQL" "connected").
Proof.
  assert (N : next_fails Cases.timing_out "timeout")
    by (eexists; eexists; split; reflexivity).
  split; [exact N|].
  destruct (database_info_never_reports_error Cases.timing_out)
    as (info & w' & E & _ & _ & F).
  destruct (F "timeout" N) as [Ft Fl]. reflexivity.
Defined.

(** X17: the health route always answers 200 with status 'OK', in
    degraded mode and when the database fails as well; its database
    block is the database info as it is, the fallbacks 'PostgreSQL' and
    'unknown' never being used. *)
Theorem health_always_answers_ok :
  forall (timestamp : string) (w : World),
    exists info w',
      getDatabaseInfo w = (Ret info, w') /\
      Routes.health timestamp w
      = (Ret (Routes.mkAnswer 200
                (Routes.Health (total_entries info) (database_type info)
                   (connection_status info) (last_updated info) timestamp)),
         w').
Proof.
  intros timestamp w.
  destruct (getDatabaseInfo_shape w) as (total & last & w' & E & _).
  eexists; exists w'. split; [exact E|].
  unfold Routes.health, try_catch, bind. rewrite E.
  destruct (pool w); reflexivity.
Qed.

(** ** Start and shutdown *)

Lemma testConnection_returns : returns testConnection.
Proof.
  unfold testConnection.
  apply returns_bind; [apply returns_has_pool | intros [|]; simpl].
  - apply returns_try_catch. intros.
    apply returns_bind; [apply returns_console_log | intros; apply returns_ret].
  - apply returns_ret.
Qed.

Lemma testConnection_failing w msg :
  next_fails w msg -> fst (testConnection w) = Ret false.
Proof.
  intros (db & rest & Hp & Hf).
  destruct w as [p e i c]. destruct db as [t nid nw fs].
  simpl in Hp, Hf. subst p fs. reflexivity.
Qed.

(** X4: initializing the database never throws, so the start-up block
    never exits the process; the status it reports is 'fallback_mode'
    without a pool, 'connection_failed' when the connection attempt
    fails, and never 'error'. *)
Theorem startup_never_exits :
  forall w : World,
    exists r w',
      initializeDatabase w = (Ret r, w') /\
      Lifecycle.startup w = (Ret Lifecycle.Running, w') /\
      snd r <> Some "error" /\
      (pool w = None -> r = (0, None, Some "fallback_mode")) /\
      (forall msg, next_fails w msg -> r = (0, None, Some "connection_failed")).
Proof.
  intros w.
  assert (H : exists r w',
            initializeDatabase w = (Ret r, w') /\
            snd r <> Some "error" /\
            (pool w = None -> r = (0, None, Some "fallback_mode")) /\
            (forall msg, next_fails w msg ->
               r = (0, None, Some "connection_failed"))).
  { unfold initializeDatabase, bind, has_pool.
    destruct (pool w) as [db|] eqn:Hp; simpl.
    - destruct (testConnection_returns w) as (b & w1 & Et). rewrite Et.
      destruct b; simpl.
      + unfold try_catch.
        destruct (getDatabaseStats_returns w1) as ((total & last) & w2 & Es).
        rewrite Es. simpl. eexists; eexists. split; [reflexivity|].
        split; [discriminate|]. split; [discriminate|].
        intros msg Hn. pose proof (testConnection_failing w msg Hn) as F.
        rewrite Et in F. discriminate.
      + unfold ret. eexists; eexists. split; [reflexivity|].
        split; [discriminate|]. split; [discriminate|]. reflexivity.
    - eexists; eexists. split; [reflexivity|].
      split; [discriminate|]. split; [reflexivity|].
      intros msg (db & rest & Hp' & _). congruence. }
  destruct H as (r & w' & E & H1 & H2 & H3).
  exists r, w'. split; [exact E|]. split; [|auto].
  unfold Lifecycle.startup, try_catch, bind. rewrite E. reflexivity.
Qed.

Lemma startup_never_exits_witness :
  pool Samples.degraded = None /\
  Lifecycle.startup Samples.degraded = (Ret Lifecycle.Running, Samples.degraded).
Proof.
  split; [reflexivity|].
  destruct (startup_never_exits Samples.degraded) as (r & w' & E & S & _).
  injection E as _ <-. exact S.
Defined.

(** X20: the SIGINT listener exits with code 0 when a pool is
    configured; without one [pool.end()] is a TypeError on null, the
    listener rejects and [process.exit(0)] is not reached. *)
Theorem sigint_without_pool_rejects :
  forall w : World,
    (pool w = None ->
     Lifecycle.on_sigint w
     = (Throw "Cannot read properties of null (reading 'end')", w)) /\
    (forall db, pool w = Some db ->
     Lifecycle.on_sigint w = (Ret (Lifecycle.Exit 0), w)).
Proof.
  intros w. unfold Lifecycle.on_sigint, Lifecycle.pool_end, bind, ret.
  split.
  - intros ->. reflexivity.
  - intros db ->. reflexivity.
Qed.

Lemma sigint_without_pool_rejects_witness :
  pool Samples.degraded = None /\
  Lifecycle.on_sigint Samples.degraded
  = (Throw "Cannot read properties of null (reading 'end')", Samples.degraded).
Proof.
  split; [reflexivity|].
  exact (proj1 (sigint_without_pool_rejects Samples.degraded) eq_refl).
Defined.

(** ** The statistics route and the broadcast *)

(** X16: the statistics route always answers 200, and a broadcast from
    the same world whose emit goes through publishes exactly one event,
    carrying the statistics, chart data, recent entries and database
    info of that answer. *)
Theorem broadcast_carries_the_statistics_answer :
  forall w : World,
    exists payload w1,
      Routes.sentiment_stats w
      = (Ret (Routes.mkAnswer 200
                (Routes.Stats (statistics payload) (chart_data payload)
                   (recent_entries payload) (database_info payload))), w1) /\
      (io_error w = None ->
       Server.broadcastDataUpdate w = (Ret tt, broadcast_done w1 payload)).
Proof.
  intros w.
  destruct (broadcast_payload_returns w)
    as ((stats & chartData & recentEntries & dbInfo) & w1 & E).
  exists (mkUpdateData stats chartData recentEntries
            (Server.database_info_of dbInfo)), w1.
  split.
  - unfold Routes.sentiment_stats, try_catch, bind. rewrite E. reflexivity.
  - intros Hio.
    destruct (broadcast_payload_keeps_socket _ _ _ E) as [_ Hi].
    unfold Server.broadcastDataUpdate, try_catch, bind. rewrite E.
    unfold io_emit, broadcast_done. rewrite Hi, Hio. reflexivity.
Qed.

Lemma broadcast_carries_the_statistics_answer_witness :
  io_error (Samples.connected Samples.five_db) = None /\
  exists payload w1,
    Server.broadcastDataUpdate (Samples.connected Samples.five_db)
    = (Ret tt, broadcast_done w1 payload).
Proof.
  split; [reflexivity|].
  destruct (broadcast_carries_the_statistics_answer
              (Samples.connected Samples.five_db)) as (payload & w1 & _ & B).
  exists payload, w1. exact (B eq_refl).
Defined.

(** ** Delete-all over HTTP *)

(** X14: on a working connection and socket the clear-data route of the
    broadcasting server empties the table, answers 200 and publishes
    exactly one event, which shows no statistics, no chart data, no
    recent entries and zero entries with no date. *)
Theorem clear_data_broadcasts_the_empty_state :
  forall (w : World) (db : Db),
    pool w = Some db -> faults db = [] -> io_error w = None ->
    Server.clear_data w
    = (Ret (mkResponse 200 BodyCleared),
       broadcast_done (with_db w (with_table db []))
         (mkUpdateData [] [] [] (0, None, "PostgreSQL"))).
Proof.
  intros w db Hp Hf Hio.
  destruct w as [p e i c]. destruct db as [t nid nw fs].
  simpl in Hp, Hf, Hio. subst p fs i. reflexivity.
Qed.

Lemma clear_data_broadcasts_the_empty_state_witness :
  emitted (snd (Server.clear_data (Samples.connected Samples.five_db)))
  = [mkUpdateData [] [] [] (0, None, "PostgreSQL")].
Proof.
  rewrite (clear_data_broadcasts_the_empty_state
             (Samples.connected Samples.five_db) Samples.five_db
             eq_refl eq_refl eq_refl).
  reflexivity.
Defined.

Lemma clearAllData_failing w msg :
  next_fails w msg ->
  exists w', clearAllData w = (Ret (ClearFail msg), w') /\
             same_socket w w' /\ same_store w w'.
Proof.
  intros (db & rest & Hp & Hf).
  destruct w as [p e i c]. destruct db as [t nid nw fs].
  simpl in Hp, Hf. subst p fs.
  eexists. split; [reflexivity|]. split; [now split|].
  unfold same_store. simpl. auto.
Qed.

(** X15: when delete-all fails, because no pool is configured or
    because the statement fails, both servers answer 500 with the
    adapter's message (or 'Failed to clear data' when that message is
    empty), nothing is broadcast and the stored rows are as they
    were. *)
Theorem clear_data_failure_is_reported :
  forall w : World,
    (pool w = None ->
     Server.clear_data w
     = (Ret (mkResponse 500 (BodyError (JStr "PostgreSQL not configured"))), w)
     /\ ServerJs.clear_data w = Server.clear_data w) /\
    (forall msg, next_fails w msg ->
     exists w',
       Server.clear_data w
       = (Ret (mkResponse 500
                 (BodyError (JStr (if String.eqb msg "" then "Failed to clear data"
                                   else msg)))), w') /\
       ServerJs.clear_data w = Server.clear_data w /\
       emitted w' = emitted w /\ same_store w w').
Proof.
  intros w. split.
  - intros Hp. destruct w as [p e i c]. simpl in Hp. subst p.
    split; reflexivity.
  - intros msg Hn.
    destruct (clearAllData_failing w msg Hn) as (w' & E & [He _] & Hs).
    exists w'.
    unfold Server.clear_data, ServerJs.clear_data, try_catch, bind.
    rewrite E. unfold status_json, ret, or_else. simpl.
    destruct (String.eqb msg ""); simpl; auto.
Qed.

Lemma clear_data_failure_is_reported_witness :
  pool Samples.degraded = None /\
  Server.clear_data Samples.degraded
  = (Ret (mkResponse 500 (BodyError (JStr "PostgreSQL not configured"))),
     Samples.degraded).
Proof.
  split; [reflexivity|].
  exact (proj1 (proj1 (clear_data_failure_is_reported Samples.degraded)
                  eq_refl)).
Defined.

(** ** GET /api/sentiment-data at its edges *)

Lemma getAllSentimentData_failing w msg :
  next_fails w msg -> fst (getAllSentimentData w) = Ret [].
Proof.
  intros (db & rest & Hp & Hf).
  destruct w as [p e i c]. destruct db as [t nid nw fs].
  simpl in Hp, Hf. subst p fs. reflexivity.
Qed.

Lemma getAllSentimentData_degraded w :
  pool w = None -> getAllSentimentData w = (Ret [], w).
Proof.
  intros Hp. destruct w as [p e i c]. simpl in Hp. subst p. reflexivity.
Qed.

Lemma slice_to_nil {A : Type} (end_ : option Z) : slice_to end_ (@nil A) = [].
Proof. unfold slice_to. apply firstn_nil_any. Qed.


Lemma sentiment_data_answer limit w :
  exists all w',
    getAllSentimentData w = (Ret all, w') /\
    Server.sentiment_data limit w
    = (Ret (mkResponse 200
              (BodyData
                 match limit with
                 | Some l =>
                     if truthy (JStr l) then slice_to (parseInt l) all else all
                 | None => all
                 end
                 (Z.of_nat (List.length all)))), w').
Proof.
  destruct (getAllSentimentData_returns w) as (all & w' & E).
  exists all, w'. split; [exact E|].
  unfold Server.sentiment_data, try_catch, bind. rewrite E. reflexivity.
Qed.

(** X12: the sentiment-data route never answers 500: it always answers
    200, and when no pool is configured or the statement fails the
    answer is an empty list with total 0, as for an empty table. *)
Theorem sentiment_data_hides_database_failure :
  forall (limit : option string) (w : World),
    exists data total w',
      Server.sentiment_data limit w
      = (Ret (mkResponse 200 (BodyData data total)), w') /\
      (pool w = None -> data = [] /\ total = 0) /\
      (forall msg, next_fails w msg -> data = [] /\ total = 0).
Proof.
  intros limit w.
  destruct (sentiment_data_answer limit w) as (all & w' & E & R).
  eexists; eexists; exists w'. split; [exact R|].
  assert (H : all = [] ->
    match limit with
    | Some l => if truthy (JStr l) then slice_to (parseInt l) all else all
    | None => all
    end = [] /\ Z.of_nat (List.length all) = 0).
  { intros ->. split; [|reflexivity].
    destruct limit as [l|]; [|reflexivity].
    destruct (truthy (JStr l)); [apply slice_to_nil | reflexivity]. }
  split.
  - intros Hp. apply H.
    pose proof (getAllSentimentData_degraded w Hp) as D.
    rewrite E in D. now injection D.
  - intros msg Hn. apply H.
    pose proof (getAllSentimentData_failing w msg Hn) as F.
    rewrite E in F. simpl in F. now injection F.
Qed.

Lemma sentiment_data_hides_database_failure_witness :
  pool Samples.degraded = None /\
  Server.sentiment_data (Some "2") Samples.degraded
  = (Ret (mkResponse 200 (BodyData [] 0)), Samples.degraded).
Proof.
  split; [reflexivity|].
  destruct (sentiment_data_hides_database_failure (Some "2") Samples.degraded)
    as (data & total & w' & E & _).
  reflexivity.
Defined.



(** ** Chart data *)

Lemma to_upper_idempotent (c : ascii) : to_upper (to_upper c) = to_upper c.
Proof. destruct c as [[] [] [] [] [] [] [] []]; reflexivity. Qed.

(** X7: capitalizing a label changes at most its first character,
    keeps its length, and capitalizing twice is capitalizing once. *)
Theorem capitalize_touches_the_first_character_only :
  forall s : string,
    capitalize (capitalize s) = capitalize s /\
    String.length (capitalize s) = String.length s /\
    (forall c rest, s = String c rest ->
       exists c', capitalize s = String c' rest) /\
    (s = "" -> capitalize s = "").
Proof.
  intros [|c rest]; simpl.
  - repeat split; auto. intros; discriminate.
  - rewrite to_upper_idempotent. repeat split; auto.
    + intros c0 rest0 [= <- <-]. eauto.
    + discriminate.
Qed.

Lemma capitalize_touches_the_first_character_only_witness :
  exists c', capitalize "positive" = String c' "ositive".
Proof.
  exact (proj1 (proj2 (proj2
    (capitalize_touches_the_first_character_only "positive")))
    "p"%char "ositive" eq_refl).
Defined.


Lemma chart_entries_unlabelled (stats : list Stat) :
  Exists (fun s => predicted_class s = None) stats ->
  exists message, chart_entries stats = Throw message.
Proof.
  induction 1 as [s stats Hs | s stats _ (m & E)]; simpl.
  - unfold chart_entry. rewrite Hs. eauto.
  - destruct (chart_entry s); [|eauto]. rewrite E. eauto.
Qed.



(** X6: when one statistics group has no class (rows with a NULL
    [predicted_class]), building the chart throws on it; the failure is
    logged and the chart data is empty as a whole, whatever the other
    groups are. *)
Theorem chart_is_dropped_on_a_null_class :
  forall (w w1 : World) (stats : list Stat),
    getSentimentStats w = (Ret stats, w1) ->
    Exists (fun s => predicted_class s = None) stats ->
    getChartData w = (Ret [], logged "Error getting chart data:" w1).
Proof.
  intros w w1 stats E H.
  destruct (chart_entries_unlabelled stats H) as (m & Ec).
  unfold getChartData, try_catch, bind. rewrite E, Ec. reflexivity.
Qed.

Lemma chart_is_dropped_on_a_null_class_witness :
  fst (getSentimentStats (Samples.connected Cases.unlabelled_db)) <> Ret [] /\
  fst (getChartData (Samples.connected Cases.unlabelled_db)) = Ret [].
Proof.
  split; [discriminate|].
  rewrite (chart_is_dropped_on_a_null_class
             (Samples.connected Cases.unlabelled_db)
             (Samples.connected Cases.unlabelled_db)
             (fst (match getSentimentStats
                           (Samples.connected Cases.unlabelled_db) with
                   | (Ret stats, _) => (stats, tt)
                   | _ => ([], tt)
                   end))
             eq_refl).
  - reflexivity.
  - apply Exists_cons_tl, Exists_cons_hd. reflexivity.
Defined.

(** ** No route lets an exception out *)

Ltac caught :=
  apply returns_try_catch; intros;
  apply returns_bind; [apply returns_console_log | intros; apply returns_ret].

(** X19: every route handler returns an answer from every world and for
    every request: an exception raised while it runs is caught in the
    handler itself. *)
Theorem no_route_throws :
  forall (table_coerce : list JsValue -> Exc Columns)
         (fetch : string -> JsValue -> Proxy.Upstream)
         (req_body : JsValue) (limit : option string) (timestamp : string),
    returns (Server.post_save_sentiment table_coerce req_body) /\
    returns (ServerJs.post_save_sentiment table_coerce req_body) /\
    returns (Server.sentiment_data limit) /\
    returns Server.clear_data /\
    returns ServerJs.clear_data /\
    returns (Routes.health timestamp) /\
    returns Routes.sentiment_stats /\
    returns Routes.chart_data_route /\
    returns (Proxy.predict fetch req_body) /\
    returns (Proxy.batch_predict fetch req_body).
Proof.
  intros. repeat split.
  - unfold Server.post_save_sentiment, Server.save_sentiment. caught.
  - unfold ServerJs.post_save_sentiment, ServerJs.save_sentiment. caught.
  - unfold Server.sentiment_data. caught.
  - unfold Server.clear_data. caught.
  - unfold ServerJs.clear_data. caught.
  - unfold Routes.health. caught.
  - unfold Routes.sentiment_stats. caught.
  - unfold Routes.chart_data_route. caught.
  - unfold Proxy.predict, Proxy.forward. caught.
  - unfold Proxy.batch_predict, Proxy.forward. caught.
Qed.

(** ** The proxy routes *)

Lemma forward_answer fetch url label req_body w :
  Proxy.forward fetch url label req_body w =
  match fetch url req_body with
  | Proxy.Responded status (Ret data) =>
      (Ret (Proxy.mkRelay (if Proxy.ok status then 200 else status) data), w)
  | _ => (Ret (Proxy.mkRelay 500 Proxy.connect_error), logged label w)
  end.
Proof.
  unfold Proxy.forward, try_catch, bind.
  destruct (fetch url req_body) as [m|status [data|m]]; try reflexivity;
    destruct (Proxy.ok status); reflexivity.
Qed.

(** X18: a proxy route asks the classifier at its own fixed address
    with the request body.  When the classifier answers with a JSON
    body, that body is relayed, with the classifier's status when it is
    not a 2xx status and with 200 for every 2xx status; when the
    classifier cannot be reached or its body is not JSON, the answer is
    500 with the fixed connect error, the failure is logged and its
    message is not part of the answer. *)
Theorem proxy_relays_json_and_hides_failures :
  forall (fetch : string -> JsValue -> Proxy.Upstream) (req_body : JsValue)
         (w : World),
    Proxy.predict fetch req_body w =
    match fetch "https://sentiment-4c5g.onrender.com/predict" req_body with
    | Proxy.Responded status (Ret data) =>
        (Ret (Proxy.mkRelay (if Proxy.ok status then 200 else status) data), w)
    | _ => (Ret (Proxy.mkRelay 500 Proxy.connect_error),
            logged "ML API predict error:" w)
    end /\
    Proxy.batch_predict fetch req_body w =
    match fetch "https://sentiment-4c5g.onrender.com/batch_predict" req_body with
    | Proxy.Responded status (Ret data) =>
        (Ret (Proxy.mkRelay (if Proxy.ok status then 200 else status) data), w)
    | _ => (Ret (Proxy.mkRelay 500 Proxy.connect_error),
            logged "ML API batch_predict error:" w)
    end.
Proof.
  intros fetch req_body w. split; apply forward_answer.
Qed.

(** ** Counts and percentages add up *)

Section Totals.
Local Open Scope list_scope.

Lemma Zsum_perm (l l' : list Z) : Permutation l l' -> Zsum l = Zsum l'.
Proof. induction 1; simpl; lia. Qed.

Lemma Qsum_perm (l l' : list Q) : Permutation l l' -> (Qsum l == Qsum l')%Q.
Proof.
  induction 1 as [| x l l' _ IH | x y l | l l' l'' _ IH1 _ IH2]; simpl.
  - reflexivity.
  - now rewrite IH.
  - ring.
  - now rewrite IH1.
Qed.

Lemma add_row_counts r gs :
  Zsum (map g_count (add_row r gs)) = Zsum (map g_count gs) + 1.
Proof.
  induction gs as [|g gs IH]; simpl.
  - unfold new_group. destruct (confidence r); reflexivity.
  - destruct (class_eqb (g_class g) (Pg.predicted_class r)); simpl.
    + unfold accumulate. destruct (confidence r); simpl; lia.
    + lia.
Qed.

Lemma fold_add_row_counts rows :
  forall gs,
    Zsum (map g_count (fold_left (fun gs r => add_row r gs) rows gs))
    = Zsum (map g_count gs) + Z.of_nat (List.length rows).
Proof.
  induction rows as [|r rows IH]; intros gs; simpl List.length; simpl fold_left.
  - lia.
  - rewrite IH, add_row_counts. lia.
Qed.

Lemma group_by_class_counts rows :
  Zsum (map g_count (group_by_class rows)) = Z.of_nat (List.length rows).
Proof. unfold group_by_class. now rewrite fold_add_row_counts. Qed.

Lemma exact_shares_sum (total : Z) (gs : list Group) :
  (Qsum (map (fun g => inject_Z (g_count g) * 100 / inject_Z total) gs)
   == inject_Z (Zsum (map g_count gs)) * 100 / inject_Z total)%Q.
Proof.
  induction gs as [|g gs IH]; simpl.
  - unfold Qdiv. ring.
  - rewrite IH, inject_Z_plus. unfold Qdiv. ring.
Qed.

Lemma Qsum_cons (x : Q) (l : list Q) : Qsum (x :: l) = (x + Qsum l)%Q.
Proof. reflexivity. Qed.

Lemma rounded_shares_sum (total : Z) (gs : list Group) :
  (Qabs (Qsum (map (fun g => round_to 100
                                (inject_Z (g_count g) * 100 / inject_Z total)) gs)
         - Qsum (map (fun g => inject_Z (g_count g) * 100 / inject_Z total) gs))
   <= inject_Z (Z.of_nat (List.length gs)) * (1 # 200))%Q.
Proof.
  induction gs as [|g gs IH].
  - apply Qle_bool_iff. reflexivity.
  - cbn [map List.length]. rewrite !Qsum_cons.
    rewrite Nat2Z.inj_succ. unfold Z.succ. rewrite inject_Z_plus.
    pose proof (round_to_near 100
                  (inject_Z (g_count g) * 100 / inject_Z total)) as Hg.
    change (1 # 2 * 100) with (1 # 200) in Hg.
    apply Qabs_Qle_condition in Hg. apply Qabs_Qle_condition in IH.
    apply Qabs_Qle_condition.
    change (inject_Z 1) with 1%Q.
    set (x := round_to 100 (inject_Z (g_count g) * 100 / inject_Z total)%Q)
      in *.
    set (y := (inject_Z (g_count g) * 100 / inject_Z total)%Q) in *.
    set (sx := Qsum (map (fun g => round_to 100
                       (inject_Z (g_count g) * 100 / inject_Z total)%Q) gs))
      in *.
    set (sy := Qsum (map (fun g =>
                       (inject_Z (g_count g) * 100 / inject_Z total)%Q) gs))
      in *.
    set (n := inject_Z (Z.of_nat (List.length gs))) in *.
    destruct Hg as [G1 G2]. destruct IH as [I1 I2].
    split; lra.
Qed.

End Totals.

Lemma getSentimentStats_on_pool w db :
  pool w = Some db -> faults db = [] ->
  getSentimentStats w
  = (Ret (map stat_of_row
            (order_by_desc sr_count
               (map (stats_row (Z.of_nat (List.length (table db))))
                    (group_by_class (table db))))), w).
Proof.
  intros Hp Hf. destruct w as [p e i c]. destruct db as [t nid nw fs].
  simpl in Hp, Hf. subst p fs. reflexivity.
Qed.

(** X11: on a working connection the counts of the statistics groups
    add up to the number of stored records, and when there is a record
    the percentages add up to 100 within half a hundredth per group. *)
Theorem stats_counts_and_percentages_add_up :
  forall (w : World) (db : Db),
    pool w = Some db -> faults db = [] ->
    exists stats,
      getSentimentStats w = (Ret stats, w) /\
      Zsum (map count stats) = Z.of_nat (List.length (table db)) /\
      (table db <> [] ->
       (Qabs (Qsum (map percentage stats) - 100)
        <= inject_Z (Z.of_nat (List.length stats)) * (1 # 200))%Q).
Proof.
  intros w db Hp Hf.
  set (total := Z.of_nat (List.length (table db))).
  set (gs := group_by_class (table db)).
  pose proof (order_by_desc_perm sr_count (map (stats_row total) gs)) as Hperm.
  exists (map stat_of_row (order_by_desc sr_count (map (stats_row total) gs))).
  split; [exact (getSentimentStats_on_pool _ _ Hp Hf)|]. split.
  - rewrite map_map.
    rewrite (Zsum_perm _ (map (fun x => count (stat_of_row x))
                              (map (stats_row total) gs)))
      by (apply Permutation_map, Hperm).
    rewrite map_map. simpl. apply group_by_class_counts.
  - intros Hne.
    rewrite length_map, (Permutation_length Hperm), length_map.
    rewrite map_map.
    rewrite (Qsum_perm _ (map (fun x => percentage (stat_of_row x))
                              (map (stats_row total) gs)))
      by (apply Permutation_map, Hperm).
    rewrite map_map.
    assert (E : (Qsum (map (fun g => inject_Z (g_count g) * 100 / inject_Z total)
                           gs) == 100)%Q).
    { rewrite exact_shares_sum. unfold gs. rewrite group_by_class_counts.
      fold total.
      assert (T : ~ (inject_Z total == 0)%Q).
      { unfold total, Qeq. simpl. destruct (table db); [congruence|].
        simpl List.length. lia. }
      field. exact T. }
    rewrite <- E. apply rounded_shares_sum.
Qed.

Lemma stats_counts_and_percentages_add_up_witness :
  exists stats,
    getSentimentStats (Samples.connected Samples.five_db)
    = (Ret stats, Samples.connected Samples.five_db) /\
    Zsum (map count stats) = 5.
Proof.
  destruct (stats_counts_and_percentages_add_up
              (Samples.connected Samples.five_db) Samples.five_db
              eq_refl eq_refl) as (stats & E & S & _).
  exists stats. split; [exact E | exact S].
Defined.
